(** * ExcelAnalyzer: column classification, numeric coercion and financial totals

    A shallow embedding of the core of [scripts_datos_general.py]
    (class [ExcelAnalyzer]): [_preparar_columnas_financieras],
    [_identificar_columnas] and [calcular_totales_financieros], followed by
    the properties of that code.

    Modelling conventions.
    - Column labels are Python strings or integers ([Etiqueta]).
    - Strings are byte strings; [lower] lowers the ASCII letters.  On UTF-8
      text this agrees with [str.lower] as far as the keyword tests go: the
      keywords are ASCII and no byte of a multi-byte sequence is ASCII.
    - Numbers are exact rationals ([Qc]); rounding of binary64 arithmetic is
      outside the model.
    - A cell is a number, a text, NaN (an empty cell) or None.
    - The dictionary of totals is an association list in insertion order;
      assigning to an existing key keeps the key's position.
    - Python exceptions are the [Raise] results of the [Resultado] monad.
    - The string-to-number grammar of [pd.to_numeric] belongs to pandas and
      is a parameter, [parse_numero].
    - The console layer ([_validar_archivo], [_cargar_archivo], [__init__])
      reads the lines typed by the user from a list, [input] raising
      [EOFError] at its end, and returns with its outcome the lines left
      unread and what it showed.  The file system, the workbook reader and
      the text functions [isdigit] and [int] are parameters; log records are
      not modelled. *)

From Stdlib Require Import List String Ascii ZArith QArith Qcanon Bool Lia.
From Stdlib Require Import DecimalString.
Import ListNotations.

Open Scope string_scope.

(** ** Exceptions *)

Inductive Excepcion : Set := KeyError | TypeError | AttributeError.

Inductive Resultado (A : Type) : Type :=
| Ok (a : A)
| Raise (e : Excepcion).

Arguments Ok {A} a.
Arguments Raise {A} e.

Definition bind {A B : Type} (c : Resultado A) (k : A -> Resultado B) : Resultado B :=
  match c with
  | Ok a => k a
  | Raise e => Raise e
  end.

Notation "x <- c ;; k" := (bind c (fun x => k))
  (at level 61, c at next level, right associativity).

(** A [for] loop over [l] that threads the state [s] and stops at the first
    exception. *)
Fixpoint for_each {A S : Type} (cuerpo : S -> A -> Resultado S) (l : list A) (s : S)
  : Resultado S :=
  match l with
  | [] => Ok s
  | a :: l' => s' <- cuerpo s a ;; for_each cuerpo l' s'
  end.

(** ** Strings *)

(** [c.lower()] on one character. *)
Definition lower_ascii (c : ascii) : ascii :=
  let n := nat_of_ascii c in
  if (65 <=? n)%nat && (n <=? 90)%nat then ascii_of_nat (n + 32) else c.

(** [s.lower()]. *)
Fixpoint lower (s : string) : string :=
  match s with
  | EmptyString => EmptyString
  | String c r => String (lower_ascii c) (lower r)
  end.

(** [s.startswith(t)]. *)
Fixpoint startswith (t s : string) : bool :=
  match t, s with
  | EmptyString, _ => true
  | String _ _, EmptyString => false
  | String a t', String b s' => Ascii.eqb a b && startswith t' s'
  end.

(** [t in s] on strings: [t] occurs in [s] at some position. *)
Fixpoint contains (t s : string) : bool :=
  startswith t s ||
  match s with
  | EmptyString => false
  | String _ s' => contains t s'
  end.

(** ** Labels, cells and tables *)

(** A column label: a string, or a non-string label such as an integer. *)
Inductive Etiqueta : Set :=
| EStr (s : string)
| EInt (z : Z).

(** Python [==] on labels: a string never equals an integer. *)
Definition etiqueta_eqb (a b : Etiqueta) : bool :=
  match a, b with
  | EStr s, EStr t => String.eqb s t
  | EInt x, EInt y => Z.eqb x y
  | _, _ => false
  end.

(** [str(col)], as used by an f-string. *)
Definition str (col : Etiqueta) : string :=
  match col with
  | EStr s => s
  | EInt z => NilZero.string_of_int (Z.to_int z)
  end.

Inductive Celda : Type :=
| Num (q : Qc)
| Texto (s : string)
| NaN
| Nulo.

Definition Series : Type := list Celda.

(** A table: the columns in sheet order, each with its label. *)
Definition DataFrame : Type := list (Etiqueta * Series).

(** [df.columns]. *)
Definition columns (df : DataFrame) : list Etiqueta := map fst df.

(** The columns of [df] labelled [col]. *)
Definition seleccion (df : DataFrame) (col : Etiqueta) : list Series :=
  map snd (filter (fun c => etiqueta_eqb (fst c) col) df).

(** [df[col]] where a Series is needed.  A missing label raises [KeyError].
    A label carried by several columns selects a DataFrame, not a Series:
    [pd.to_numeric] rejects it with [TypeError] and its [sum()] is not a
    number, so the model stops with [TypeError].  [read_excel] renames
    repeated headers, so sheets do not have such labels. *)
Definition getitem (df : DataFrame) (col : Etiqueta) : Resultado Series :=
  match seleccion df col with
  | [] => Raise KeyError
  | [serie] => Ok serie
  | _ :: _ :: _ => Raise TypeError
  end.

(** [df[col] = serie]: replaces the values under [col], or appends a new
    column when the label is new. *)
Definition setitem (df : DataFrame) (col : Etiqueta) (serie : Series) : DataFrame :=
  if existsb (fun c => etiqueta_eqb (fst c) col) df
  then map (fun c => if etiqueta_eqb (fst c) col then (fst c, serie) else c) df
  else (df ++ [(col, serie)])%list.

(** [serie.fillna(v)]. *)
Definition fillna (serie : Series) (v : Qc) : Series :=
  map (fun c => match c with
                | NaN | Nulo => Num v
                | _ => c
                end) serie.

(** [serie.sum()]: missing values are skipped.  A column with a text has no
    numeric sum (pandas raises [TypeError] on a text next to a number); the
    model raises [TypeError]. *)
Fixpoint Series_sum (serie : Series) : Resultado Qc :=
  match serie with
  | [] => Ok 0%Qc
  | Num q :: r => t <- Series_sum r ;; Ok (q + t)%Qc
  | Texto _ :: _ => Raise TypeError
  | (NaN | Nulo) :: r => Series_sum r
  end.

(** ** The dictionary of totals *)

Definition Dict : Type := list (string * Qc).

(** [d[k] = v]. *)
Fixpoint dict_set (d : Dict) (k : string) (v : Qc) : Dict :=
  match d with
  | [] => [(k, v)]
  | (k', v') :: r => if String.eqb k' k then (k', v) :: r else (k', v') :: dict_set r k v
  end.

(** [d.get(k)]. *)
Fixpoint dict_get (d : Dict) (k : string) : option Qc :=
  match d with
  | [] => None
  | (k', v') :: r => if String.eqb k' k then Some v' else dict_get r k
  end.

(** [sum(valores)], the built-in: starts from 0 and adds from the left. *)
Definition py_sum (valores : list Qc) : Qc := fold_left Qcplus valores 0%Qc.

(** ** Configuration *)

(** The [configuracion] mapping: each key may be absent. *)
Record Configuracion : Type := {
  calcular_iva : option bool;
  iva_rate : option Qc
}.

(** [{}]. *)
Definition configuracion_vacia : Configuracion :=
  {| calcular_iva := None; iva_rate := None |}.

(** [configuracion.get('calcular_iva', True)]. *)
Definition get_calcular_iva (c : Configuracion) : bool :=
  match calcular_iva c with
  | Some b => b
  | None => true
  end.

(** [configuracion.get('iva_rate', 0.16)]. *)
Definition get_iva_rate (c : Configuracion) : Qc :=
  match iva_rate c with
  | Some r => r
  | None => Q2Qc (16 # 100)
  end.

(** ** The analyzer *)

Definition COLUMNAS_FINANCIERAS : list string :=
  [ "monto"; "subtotal"; "iva"; "total"; "descuento";
    "impuesto"; "factura"; "precio" ].

Record ExcelAnalyzer : Type := {
  df : DataFrame;
  columnas_monetarias : list Etiqueta;
  columnas_no_monetarias : list Etiqueta;
  configuracion : Configuracion
}.

(** [col in lista] on a list of labels. *)
Definition en_lista (col : Etiqueta) (lista : list Etiqueta) : bool :=
  existsb (etiqueta_eqb col) lista.

(** [_identificar_columnas]: the two comprehensions over [self.df.columns]. *)
Definition _identificar_columnas (self : ExcelAnalyzer) : ExcelAnalyzer :=
  let monetarias :=
    filter (fun col =>
              match col with
              | EStr s =>
                  existsb (fun termino => contains termino (lower s)) COLUMNAS_FINANCIERAS
              | EInt _ => false
              end) (columns (df self)) in
  let no_monetarias :=
    filter (fun col => negb (en_lista col monetarias)) (columns (df self)) in
  {| df := df self;
     columnas_monetarias := monetarias;
     columnas_no_monetarias := no_monetarias;
     configuracion := configuracion self |}.

(** One iteration of the loop of [calcular_totales_financieros].  A label
    that is not a string has no [lower] method ([AttributeError]); the call
    is only reached when [calcular_iva] holds, as [and] short-circuits. *)
Definition total_de_columna (self : ExcelAnalyzer) (totales : Dict) (columna : Etiqueta)
  : Resultado Dict :=
  serie <- getitem (df self) columna ;;
  total_columna <- Series_sum serie ;;
  let totales := dict_set totales ("Total " ++ str columna) total_columna in
  if get_calcular_iva (configuracion self) then
    match columna with
    | EStr s =>
        if negb (contains "iva" (lower s)) then
          let iva_rate := get_iva_rate (configuracion self) in
          let iva := (total_columna * iva_rate)%Qc in
          let totales := dict_set totales ("IVA de " ++ str columna) iva in
          Ok (dict_set totales ("Total con IVA de " ++ str columna) (total_columna + iva)%Qc)
        else Ok totales
    | EInt _ => Raise AttributeError
    end
  else Ok totales.

(** The [for] loop of [calcular_totales_financieros] over the columns
    [columnas], starting from the dictionary [totales]. *)
Definition bucle_totales (self : ExcelAnalyzer) (columnas : list Etiqueta) (totales : Dict)
  : Resultado Dict :=
  for_each (total_de_columna self) columnas totales.

(** The generator summed into 'Total Factura'. *)
Definition valores_con_iva (totales : Dict) : list Qc :=
  map snd (filter (fun item => contains "Total con IVA" (fst item)) totales).

Definition calcular_totales_financieros (self : ExcelAnalyzer) : Resultado Dict :=
  totales <- bucle_totales self (columnas_monetarias self) [] ;;
  Ok (dict_set totales "Total Factura" (py_sum (valores_con_iva totales))).

(** ** Vocabulary of the properties *)

(** [t] occurs in [s]: some text before it, some text after it. *)
Definition subcadena (t s : string) : Prop :=
  exists a b, s = a ++ t ++ b.

(** The test that both [_preparar_columnas_financieras] and
    [_identificar_columnas] apply to a label. *)
Definition es_monetaria (col : Etiqueta) : bool :=
  match col with
  | EStr s => existsb (fun termino => contains termino (lower s)) COLUMNAS_FINANCIERAS
  | EInt _ => false
  end.

(** A cell that holds a number. *)
Definition es_numero (c : Celda) : bool :=
  match c with
  | Num _ => true
  | _ => false
  end.

(** A sample number grammar used to run the model on concrete sheets:
    unsigned decimal integers. *)
Fixpoint digitos (s : string) (acc : Z) : option Z :=
  match s with
  | EmptyString => Some acc
  | String c r =>
      let n := nat_of_ascii c in
      if (48 <=? n)%nat && (n <=? 57)%nat
      then digitos r (10 * acc + Z.of_nat (n - 48))
      else None
  end.

Definition parse_entero (s : string) : option Qc :=
  match s with
  | EmptyString => None
  | _ => option_map (fun z => Q2Qc (inject_Z z)) (digitos s 0)
  end.

Section Analizador.

(** The number grammar of [pd.to_numeric]: the value of a text, if it is
    one. *)
Variable parse_numero : string -> option Qc.

(** [pd.to_numeric(serie, errors='coerce')]: what is not a number becomes
    NaN. *)
Definition to_numeric (serie : Series) : Series :=
  map (fun c => match c with
                | Num q => Num q
                | Texto s => match parse_numero s with
                             | Some q => Num q
                             | None => NaN
                             end
                | NaN | Nulo => NaN
                end) serie.

(** One iteration of the loop of [_preparar_columnas_financieras]. *)
Definition preparar_columna (df : DataFrame) (columna : Etiqueta) : Resultado DataFrame :=
  match columna with
  | EStr s =>
      let columna_lower := lower s in
      if existsb (fun termino => contains termino columna_lower) COLUMNAS_FINANCIERAS
      then
        serie <- getitem df columna ;;
        let df := setitem df columna (to_numeric serie) in
        serie <- getitem df columna ;;
        Ok (setitem df columna (fillna serie 0%Qc))
      else Ok df
  | EInt _ => Ok df
  end.

(** [_preparar_columnas_financieras], the second definition of that name in
    the class body, which is the one in force. *)
Definition _preparar_columnas_financieras (df : DataFrame) : Resultado DataFrame :=
  for_each preparar_columna (columns df) df.

(** [__init__] on an already selected sheet: [_cargar_archivo] returns the
    prepared table, then the columns are classified. *)
Definition init (hoja : DataFrame) (configuracion : option Configuracion)
  : Resultado ExcelAnalyzer :=
  df <- _preparar_columnas_financieras hoja ;;
  Ok (_identificar_columnas
        {| df := df;
           columnas_monetarias := [];
           columnas_no_monetarias := [];
           configuracion := match configuracion with
                            | Some c => c
                            | None => configuracion_vacia
                            end |}).

(** The numeric interpretation of a cell: its number, the number its text
    denotes, and zero for anything else. *)
Definition interpretar (c : Celda) : Celda :=
  match c with
  | Num q => Num q
  | Texto s => match parse_numero s with
               | Some q => Num q
               | None => Num 0%Qc
               end
  | NaN | Nulo => Num 0%Qc
  end.

(** A column after the coercion pass, as the specification describes it. *)
Definition preparada (c : Etiqueta * Series) : Etiqueta * Series :=
  if es_monetaria (fst c) then (fst c, map interpretar (snd c)) else c.

End Analizador.

(** The labels that pass the keyword test occur once in the table. *)
Definition unicas (df : DataFrame) : Prop :=
  forall col, In col (columns df) -> es_monetaria col = true ->
              List.length (seleccion df col) = 1%nat.

(** Equality test, to compare computed dictionaries. *)
Fixpoint lista_eqb {A : Type} (eqb : A -> A -> bool) (l m : list A) : bool :=
  match l, m with
  | [], [] => true
  | a :: l', b :: m' => eqb a b && lista_eqb eqb l' m'
  | _, _ => false
  end.

Definition dict_eqb : Dict -> Dict -> bool :=
  lista_eqb (fun c d => String.eqb (fst c) (fst d) && Qc_eq_bool (snd c) (snd d)).

(** The sum of the numbers of a column. *)
Fixpoint suma_numeros (serie : Series) : Qc :=
  match serie with
  | [] => 0%Qc
  | Num q :: r => (q + suma_numeros r)%Qc
  | _ :: r => suma_numeros r
  end.

(** The total of the column of [d] labelled [col] (zero when there is no
    such single column). *)
Definition total_de (d : DataFrame) (col : Etiqueta) : Qc :=
  match getitem d col with
  | Ok serie => suma_numeros serie
  | Raise _ => 0%Qc
  end.

(** The column named [nombre] qualifies for tax under [c]. *)
Definition grava (c : Configuracion) (nombre : string) : bool :=
  get_calcular_iva c && negb (contains "iva" (lower nombre)).

(** The entries that the column named [nombre], of total [total], adds to
    the dictionary [totales]. *)
Definition anotar (c : Configuracion) (totales : Dict) (nombre : string) (total : Qc) : Dict :=
  let con_total := dict_set totales ("Total " ++ nombre) total in
  if grava c nombre then
    dict_set (dict_set con_total ("IVA de " ++ nombre) (total * get_iva_rate c)%Qc)
             ("Total con IVA de " ++ nombre) (total + total * get_iva_rate c)%Qc
  else con_total.

(** The dictionary after the columns named [nombres] of the analyzer. *)
Definition anotar_todas (self : ExcelAnalyzer) (nombres : list string) (totales : Dict) : Dict :=
  fold_left (fun t nombre => anotar (configuracion self) t nombre (total_de (df self) (EStr nombre)))
            nombres totales.

(** The string labels of a list of labels. *)
Fixpoint nombres_de (l : list Etiqueta) : list string :=
  match l with
  | [] => []
  | EStr s :: r => s :: nombres_de r
  | EInt _ :: r => nombres_de r
  end.

(** The column named [nombre] of [d] is a single column of numbers. *)
Definition numerica (d : DataFrame) (nombre : string) : Prop :=
  exists serie, getitem d (EStr nombre) = Ok serie /\ forallb es_numero serie = true.


(** The tax-inclusive total of the column named [nombre] of the analyzer. *)
Definition total_con_iva (self : ExcelAnalyzer) (nombre : string) : Qc :=
  (total_de (df self) (EStr nombre)
   + total_de (df self) (EStr nombre) * get_iva_rate (configuracion self))%Qc.

(** ** Sample sheets *)

(** A column of texts and numbers under a monetary label. *)
Definition hoja_monto : DataFrame :=
  [ (EStr "Monto", [Texto "abc"; Texto ""; Num (Q2Qc 50); Texto "7"; NaN; Nulo]) ].

(** Dates, prices and an integer-labelled column. *)
Definition hoja_mixta : DataFrame :=
  [ (EStr "Fecha", [Texto "2024-01-05"; Texto "2024-01-06"]);
    (EStr "Precio", [Texto "100"; Num (Q2Qc 200)]);
    (EInt 2024, [Texto "12"; NaN]) ].

(** An invoice sheet with a column named 'Factura'. *)
Definition hoja_factura : DataFrame :=
  [ (EStr "Concepto", [Texto "servicio"; Texto "envio"]);
    (EStr "Factura", [Num (Q2Qc 100); Texto "50"]) ].

(** ** The overridden preparation *)

Section Sobrescrita.

Variable parse_numero : string -> option Qc.

(** One iteration of the loop of the first [_preparar_columnas_financieras]
    of the class body: [columna.lower()] is called on every label, and a
    label that is not a string has no such method. *)
Definition preparar_columna_primera (df : DataFrame) (columna : Etiqueta)
  : Resultado DataFrame :=
  match columna with
  | EStr s =>
      let columna_lower := lower s in
      if existsb (fun termino => contains termino columna_lower) COLUMNAS_FINANCIERAS
      then
        serie <- getitem df columna ;;
        let df := setitem df columna (to_numeric parse_numero serie) in
        serie <- getitem df columna ;;
        Ok (setitem df columna (fillna serie 0%Qc))
      else Ok df
  | EInt _ => Raise AttributeError
  end.

(** The first [_preparar_columnas_financieras] of the class body, which the
    second definition of the same name replaces. *)
Definition _preparar_columnas_financieras_primera (df : DataFrame) : Resultado DataFrame :=
  for_each preparar_columna_primera (columns df) df.

End Sobrescrita.

(** ** The console layer: choosing the file and the sheet *)

(** Exceptions of the console layer; [Interna] carries an exception of the
    table layer. *)
Inductive Error : Type :=
| ValueError
| EOFError
| FileNotFoundError
| IndexError
| Interna (e : Excepcion)
| Otra (clase : string).

Inductive Salida (A : Type) : Type :=
| Devuelve (a : A)
| Lanza (e : Error).

Arguments Devuelve {A} a.
Arguments Lanza {A} e.

(** What a call shows on the console: a [print], or the prompt of an
    [input].  Log records are not modelled. *)
Inductive Evento : Type :=
| Print (texto : string)
| Input (prompt : string).

(** A call that reads lines typed by the user: its outcome, the lines left
    unread and what it showed. *)
Record Corrida (A : Type) : Type := {
  salida : Salida A;
  resto : list string;
  consola : list Evento
}.

Arguments salida {A} c.
Arguments resto {A} c.
Arguments consola {A} c.

(** The newline character of the literals that start with it. *)
Definition nl : string := String "010"%char "".

(** [str(i)] for an index of [enumerate]. *)
Definition str_nat (i : nat) : string := NilZero.string_of_uint (Nat.to_uint i).

(** [for i, x in enumerate(textos, desde): print(f"{i}. {x}")]. *)
Fixpoint enumerar (desde : nat) (textos : list string) : list Evento :=
  match textos with
  | [] => []
  | x :: r => Print (str_nat desde ++ ". " ++ x) :: enumerar (S desde) r
  end.

(** [l[i]] on a Python list: a negative index counts from the end. *)
Definition indexar {A : Type} (l : list A) (i : Z) : Salida A :=
  let n := Z.of_nat (List.length l) in
  let j := if (i <? 0)%Z then (i + n)%Z else i in
  if (0 <=? j)%Z && (j <? n)%Z
  then match nth_error l (Z.to_nat j) with
       | Some a => Devuelve a
       | None => Lanza IndexError
       end
  else Lanza IndexError.

(** [_mostrar_hojas_disponibles]. *)
Definition _mostrar_hojas_disponibles (hojas : list string) : list Evento :=
  Print (nl ++ "Hojas disponibles:") :: enumerar 1 hojas.

(** [_mostrar_info_columnas]. *)
Definition _mostrar_info_columnas (df : DataFrame) : list Evento :=
  Print (nl ++ "Columnas encontradas:")
  :: map (fun col => Print ("- " ++ str col)) (columns df).

(** An opened workbook: [xls.sheet_names] and [pd.read_excel(xls,
    sheet_name=...)], which may raise. *)
Record ExcelFile : Type := {
  sheet_names : list string;
  read_excel : string -> Salida DataFrame
}.

(** The argument of [_validar_archivo]: [Union[str, Path]]. *)
Inductive Argumento (Ruta : Type) : Type :=
| Cadena (s : string)
| Camino (p : Ruta).

Arguments Cadena {Ruta} s.
Arguments Camino {Ruta} p.

Section Consola.

(** The file system and the text functions of Python, as the code uses
    them: paths, [Path(s)], [str(p)], [p.is_file()],
    [list(Path().glob(patron))], [pd.ExcelFile(p)], [s.isdigit()] and
    [int(s)] ([None] for [ValueError]). *)
Variable Ruta : Type.
Variable Path_de : string -> Ruta.
Variable str_ruta : Ruta -> string.
Variable is_file : Ruta -> bool.
Variable glob : string -> Salida (list Ruta).
Variable pd_ExcelFile : Ruta -> Salida ExcelFile.
Variable isdigit : string -> bool.
Variable int_de : string -> option Z.
Variable parse_numero : string -> option Qc.

(** [_mostrar_archivos_disponibles]. *)
Definition _mostrar_archivos_disponibles : Salida unit * list Evento :=
  let titulo := Print (nl ++ "Archivos Excel disponibles en el directorio:") in
  match glob "**/*.xls*" with
  | Lanza e => (Lanza e, [titulo])
  | Devuelve [] =>
      (Devuelve tt,
       [titulo; Print "No se encontraron archivos Excel en el directorio."])
  | Devuelve archivos_excel =>
      (Devuelve tt, titulo :: enumerar 1 (map str_ruta archivos_excel))
  end.

(** The [while True] loop of [_validar_archivo]: one line is read per turn;
    at the end of the input [input] raises [EOFError]. *)
Fixpoint elegir_ruta (posibles_rutas : list Ruta) (entrada : list string) : Corrida Ruta :=
  let prompt := Input (nl ++ "Seleccione el número del archivo correcto: ") in
  match entrada with
  | [] => {| salida := Lanza EOFError; resto := []; consola := [prompt] |}
  | linea :: entrada' =>
      match int_de linea with
      | Some seleccion =>
          if (1 <=? seleccion)%Z && (seleccion <=? Z.of_nat (List.length posibles_rutas))%Z
          then {| salida := indexar posibles_rutas (seleccion - 1);
                  resto := entrada';
                  consola := [prompt] |}
          else
            let c := elegir_ruta posibles_rutas entrada' in
            {| salida := salida c; resto := resto c; consola := prompt :: consola c |}
      | None =>
          let c := elegir_ruta posibles_rutas entrada' in
          {| salida := salida c;
             resto := resto c;
             consola := prompt :: Print "Por favor, ingrese un número válido." :: consola c |}
      end
  end.

(** The search by name of [_validar_archivo], from
    [posibles_rutas = list(Path().glob(...))] to the final [raise]. *)
Definition buscar_por_nombre (s : string) (entrada : list string) : Corrida Ruta :=
  match glob ("**/" ++ s) with
  | Lanza e => {| salida := Lanza e; resto := entrada; consola := [] |}
  | Devuelve [] =>
      let m := _mostrar_archivos_disponibles in
      {| salida := match fst m with
                   | Devuelve _ => Lanza FileNotFoundError
                   | Lanza e => Lanza e
                   end;
         resto := entrada;
         consola := snd m |}
  | Devuelve [unica] =>
      {| salida := indexar [unica] 0; resto := entrada; consola := [] |}
  | Devuelve posibles_rutas =>
      let c := elegir_ruta posibles_rutas entrada in
      {| salida := salida c;
         resto := resto c;
         consola := (Print (nl ++ "Se encontraron varios archivos posibles:")
                     :: enumerar 1 (map str_ruta posibles_rutas)) ++ consola c |}
  end.

(** [_validar_archivo].  A [Path] has no [isdigit] method. *)
Definition _validar_archivo (archivo_excel : Argumento Ruta) (entrada : list string)
  : Corrida Ruta :=
  let archivo_path := match archivo_excel with
                      | Cadena s => Path_de s
                      | Camino p => p
                      end in
  if is_file archivo_path
  then {| salida := Devuelve archivo_path; resto := entrada; consola := [] |}
  else
    match archivo_excel with
    | Camino _ =>
        {| salida := Lanza (Interna AttributeError); resto := entrada; consola := [] |}
    | Cadena s =>
        if isdigit s then
          match int_de s with
          | None => {| salida := Lanza ValueError; resto := entrada; consola := [] |}
          | Some num =>
              match glob "**/*.xls*" with
              | Lanza e => {| salida := Lanza e; resto := entrada; consola := [] |}
              | Devuelve archivos_excel =>
                  if (1 <=? num)%Z && (num <=? Z.of_nat (List.length archivos_excel))%Z
                  then {| salida := indexar archivos_excel (num - 1);
                          resto := entrada;
                          consola := [] |}
                  else buscar_por_nombre s entrada
              end
          end
        else buscar_por_nombre s entrada
    end.

(** The [while True] loop of [_cargar_archivo] over [n_hojas] sheets; it
    yields the index [seleccion]. *)
Fixpoint elegir_hoja (n_hojas : nat) (entrada : list string) : Corrida Z :=
  let prompt := Input "Seleccione el número de la hoja a analizar: " in
  match entrada with
  | [] => {| salida := Lanza EOFError; resto := []; consola := [prompt] |}
  | linea :: entrada' =>
      match int_de linea with
      | Some n =>
          let seleccion := (n - 1)%Z in
          if (0 <=? seleccion)%Z && (seleccion <? Z.of_nat n_hojas)%Z
          then {| salida := Devuelve seleccion; resto := entrada'; consola := [prompt] |}
          else
            let c := elegir_hoja n_hojas entrada' in
            {| salida := salida c;
               resto := resto c;
               consola := prompt :: Print "Selección no válida. Intente de nuevo."
                                 :: consola c |}
      | None =>
          let c := elegir_hoja n_hojas entrada' in
          {| salida := salida c;
             resto := resto c;
             consola := prompt :: Print "Por favor, ingrese un número válido." :: consola c |}
      end
  end.

(** [_cargar_archivo] for [self.archivo_excel = archivo_excel]. *)
Definition _cargar_archivo (archivo_excel : Ruta) (entrada : list string)
  : Corrida DataFrame :=
  match pd_ExcelFile archivo_excel with
  | Lanza e => {| salida := Lanza e; resto := entrada; consola := [] |}
  | Devuelve xls =>
      let hojas := _mostrar_hojas_disponibles (sheet_names xls) in
      let c := elegir_hoja (List.length (sheet_names xls)) entrada in
      match salida c with
      | Lanza e => {| salida := Lanza e; resto := resto c; consola := hojas ++ consola c |}
      | Devuelve seleccion =>
          match indexar (sheet_names xls) seleccion with
          | Lanza e =>
              {| salida := Lanza e; resto := resto c; consola := hojas ++ consola c |}
          | Devuelve hoja_seleccionada =>
              match read_excel xls hoja_seleccionada with
              | Lanza e =>
                  {| salida := Lanza e; resto := resto c; consola := hojas ++ consola c |}
              | Devuelve df =>
                  {| salida := match _preparar_columnas_financieras parse_numero df with
                               | Ok preparado => Devuelve preparado
                               | Raise e => Lanza (Interna e)
                               end;
                     resto := resto c;
                     consola := hojas ++ consola c ++ _mostrar_info_columnas df |}
              end
          end
      end
  end.

(** A line that the sheet loop accepts among [n_hojas] sheets. *)
Definition hoja_valida (n_hojas : nat) (linea : string) : bool :=
  match int_de linea with
  | Some n => (1 <=? n)%Z && (n <=? Z.of_nat n_hojas)%Z
  | None => false
  end.

(** A line that the file loop accepts among [n] candidates. *)
Definition ruta_valida (n : nat) (linea : string) : bool :=
  match int_de linea with
  | Some k => (1 <=? k)%Z && (k <=? Z.of_nat n)%Z
  | None => false
  end.

End Consola.

Arguments _mostrar_archivos_disponibles {Ruta}.
Arguments elegir_ruta {Ruta}.
Arguments buscar_por_nombre {Ruta}.
Arguments _validar_archivo {Ruta}.
Arguments _cargar_archivo {Ruta}.

(** ** The constructor *)

(** What [__init__] stores besides the table, its classification and the
    configuration. *)
Record Sesion (Ruta : Type) : Type := {
  archivo_excel : Ruta;
  reporte_fecha : string;
  directorio_salida : string;
  analizador : ExcelAnalyzer
}.

Arguments archivo_excel {Ruta} s.
Arguments reporte_fecha {Ruta} s.
Arguments directorio_salida {Ruta} s.
Arguments analizador {Ruta} s.

Section Constructor.

Variable Ruta : Type.
Variable Path_de : string -> Ruta.
Variable str_ruta : Ruta -> string.
Variable is_file : Ruta -> bool.
Variable glob : string -> Salida (list Ruta).
Variable pd_ExcelFile : Ruta -> Salida ExcelFile.
Variable isdigit : string -> bool.
Variable int_de : string -> option Z.
Variable parse_numero : string -> option Qc.

(** The outcome of [_configurar_logging], which only touches the logging
    library and the log directory; [datetime.now().strftime("%Y-%m-%d")];
    and [Path(d).mkdir(exist_ok=True)]. *)
Variable _configurar_logging : Salida unit.
Variable hoy : string.
Variable mkdir : string -> Salida unit.

(** [_crear_directorio_salida] for [self.reporte_fecha = fecha]: the
    directory name and the outcome of creating it. *)
Definition _crear_directorio_salida (fecha : string) : string * Salida unit :=
  let directorio_salida := "reportes_" ++ fecha in
  (directorio_salida, mkdir directorio_salida).

(** [__init__]. *)
Definition __init__ (archivo_excel : Argumento Ruta) (configuracion : option Configuracion)
           (entrada : list string) : Corrida (Sesion Ruta) :=
  let configuracion := match configuracion with
                       | Some c => c
                       | None => configuracion_vacia
                       end in
  match _configurar_logging with
  | Lanza e => {| salida := Lanza e; resto := entrada; consola := [] |}
  | Devuelve _ =>
      let v := _validar_archivo Path_de str_ruta is_file glob isdigit int_de
                                archivo_excel entrada in
      match salida v with
      | Lanza e => {| salida := Lanza e; resto := resto v; consola := consola v |}
      | Devuelve archivo =>
          let c := _cargar_archivo pd_ExcelFile int_de parse_numero archivo (resto v) in
          match salida c with
          | Lanza e =>
              {| salida := Lanza e; resto := resto c; consola := consola v ++ consola c |}
          | Devuelve df =>
              let d := _crear_directorio_salida hoy in
              {| salida :=
                   match snd d with
                   | Lanza e => Lanza e
                   | Devuelve _ =>
                       Devuelve
                         {| archivo_excel := archivo;
                            reporte_fecha := hoy;
                            directorio_salida := fst d;
                            analizador :=
                              _identificar_columnas
                                {| df := df;
                                   columnas_monetarias := [];
                                   columnas_no_monetarias := [];
                                   configuracion := configuracion |} |}
                   end;
                 resto := resto c;
                 consola := consola v ++ consola c |}
          end
      end
  end.

End Constructor.

Arguments __init__ {Ruta}.

(** ** A sample directory and workbook *)

(** [s.isdigit()] and [int(s)] on ASCII text without sign or spaces. *)
Fixpoint todos_digitos (s : string) : bool :=
  match s with
  | EmptyString => true
  | String c r =>
      let n := nat_of_ascii c in
      (48 <=? n)%nat && (n <=? 57)%nat && todos_digitos r
  end.

Definition isdigit_ascii (s : string) : bool :=
  match s with
  | EmptyString => false
  | _ => todos_digitos s
  end.

Definition int_ascii (s : string) : option Z :=
  match s with
  | EmptyString => None
  | _ => digitos s 0
  end.

(** A directory with three Excel files, two of them with the same name;
    paths are their texts. *)
Definition is_file_muestra (p : string) : bool :=
  String.eqb p "datos/ventas.xlsx" || String.eqb p "viejo/ventas.xlsx"
  || String.eqb p "compras.xls".

Definition glob_muestra (patron : string) : Salida (list string) :=
  if String.eqb patron "**/*.xls*"
  then Devuelve ["datos/ventas.xlsx"; "viejo/ventas.xlsx"; "compras.xls"]
  else if String.eqb patron "**/ventas.xlsx"
  then Devuelve ["datos/ventas.xlsx"; "viejo/ventas.xlsx"]
  else if String.eqb patron "**/compras.xls"
  then Devuelve ["compras.xls"]
  else Devuelve [].

(** A workbook with two sheets. *)
Definition libro_muestra : ExcelFile :=
  {| sheet_names := ["Enero"; "Febrero"];
     read_excel := fun nombre =>
                     if String.eqb nombre "Enero" then Devuelve hoja_mixta
                     else if String.eqb nombre "Febrero" then Devuelve hoja_monto
                     else Lanza ValueError |}.

Definition abrir_muestra (p : string) : Salida ExcelFile :=
  if is_file_muestra p then Devuelve libro_muestra else Lanza FileNotFoundError.

(** * Properties *)

(** ** Strings and labels *)

Lemma startswith_spec (t s : string) :
  startswith t s = true <-> exists b, s = t ++ b.
Proof.
  revert s; induction t as [|a t IH]; intros s; simpl.
  - split; [intros _; now exists s | reflexivity].
  - destruct s as [|b s].
    + split; [discriminate | intros [r Hr]; discriminate].
    + rewrite andb_true_iff, Ascii.eqb_eq, IH. split.
      * intros [-> [r ->]]. now exists r.
      * intros [r Hr]. injection Hr as -> ->. split; [reflexivity | now exists r].
Qed.

Lemma contains_spec (t s : string) :
  contains t s = true <-> subcadena t s.
Proof.
  unfold subcadena. induction s as [|c s IH]; simpl.
  - rewrite orb_false_r, startswith_spec. split.
    + intros [b Hb]. now exists "", b.
    + intros [a [b H]]. destruct a; simpl in H; [now exists b | discriminate].
  - rewrite orb_true_iff, startswith_spec, IH. split.
    + intros [[b Hb] | [a [b Hab]]].
      * now exists "", b.
      * exists (String c a), b. simpl. now rewrite Hab.
    + intros [a [b H]]. destruct a as [|c' a]; simpl in H.
      * left. now exists b.
      * right. injection H as _ ->. now exists a, b.
Qed.

Lemma etiqueta_eqb_eq (a b : Etiqueta) :
  etiqueta_eqb a b = true <-> a = b.
Proof.
  destruct a, b; simpl; try (split; [discriminate | congruence]).
  - rewrite String.eqb_eq. split; congruence.
  - rewrite Z.eqb_eq. split; congruence.
Qed.

Lemma etiqueta_eqb_refl (a : Etiqueta) : etiqueta_eqb a a = true.
Proof. now apply etiqueta_eqb_eq. Qed.

Lemma etiqueta_eqb_sym (a b : Etiqueta) : etiqueta_eqb a b = etiqueta_eqb b a.
Proof.
  destruct (etiqueta_eqb b a) eqn:E.
  - apply etiqueta_eqb_eq in E. subst. apply etiqueta_eqb_refl.
  - destruct (etiqueta_eqb a b) eqn:E'; [|reflexivity].
    apply etiqueta_eqb_eq in E'. subst. now rewrite etiqueta_eqb_refl in E.
Qed.

Lemma en_lista_In (col : Etiqueta) (lista : list Etiqueta) :
  en_lista col lista = true <-> In col lista.
Proof.
  unfold en_lista. rewrite existsb_exists. split.
  - intros [x [Hx E]]. apply etiqueta_eqb_eq in E. now subst.
  - intros H. exists col. split; [assumption | apply etiqueta_eqb_refl].
Qed.

(** ** Classification *)

Lemma monetarias_filter (self : ExcelAnalyzer) :
  columnas_monetarias (_identificar_columnas self)
  = filter es_monetaria (columns (df self)).
Proof. reflexivity. Qed.

Lemma no_monetarias_filter (self : ExcelAnalyzer) :
  columnas_no_monetarias (_identificar_columnas self)
  = filter (fun col => negb (es_monetaria col)) (columns (df self)).
Proof.
  unfold _identificar_columnas; simpl. fold es_monetaria.
  apply filter_ext_in. intros col Hcol. f_equal.
  destruct (es_monetaria col) eqn:E.
  - apply en_lista_In, filter_In. now split.
  - destruct (en_lista col _) eqn:E'; [|reflexivity].
    apply en_lista_In, filter_In in E'. destruct E' as [_ E'].
    change (es_monetaria col = true) in E'. congruence.
Qed.

Lemma filter_length_negb {A : Type} (p : A -> bool) (l : list A) :
  (List.length (filter p l) + List.length (filter (fun x => negb (p x)) l) = List.length l)%nat.
Proof.
  induction l as [|x l IH]; simpl; [reflexivity|].
  destruct (p x); simpl; lia.
Qed.

(** C2. Classification is a total and disjoint partition of the column
    labels: the monetary labels are the labels that pass the keyword test,
    in table order, the others are the labels that fail it, in table order;
    every label of the table is in one of the two lists, no label is in
    both, and the two lengths add up to the number of columns. *)
Theorem clasificacion_particion (self : ExcelAnalyzer) :
  let clasificado := _identificar_columnas self in
  let todas := columns (df self) in
  columnas_monetarias clasificado = filter es_monetaria todas /\
  columnas_no_monetarias clasificado = filter (fun col => negb (es_monetaria col)) todas /\
  (forall col, In col todas <->
     In col (columnas_monetarias clasificado) \/
     In col (columnas_no_monetarias clasificado)) /\
  (forall col, ~ (In col (columnas_monetarias clasificado) /\
                  In col (columnas_no_monetarias clasificado))) /\
  (List.length (columnas_monetarias clasificado)
   + List.length (columnas_no_monetarias clasificado) = List.length todas)%nat /\
  df clasificado = df self.
Proof.
  intros clasificado todas. subst clasificado todas.
  rewrite monetarias_filter, no_monetarias_filter.
  split; [reflexivity|]. split; [reflexivity|].
  split; [|split; [|split; [apply filter_length_negb | reflexivity]]].
  - intros col. rewrite !filter_In. split.
    + intros H. destruct (es_monetaria col); [left | right]; now split.
    + tauto.
  - intros col [H1 H2]. apply filter_In in H1, H2.
    destruct H1 as [_ H1], H2 as [_ H2]. rewrite H1 in H2. discriminate.
Qed.

Lemma es_monetaria_spec (s : string) :
  es_monetaria (EStr s) = true <->
  exists termino, In termino COLUMNAS_FINANCIERAS /\ subcadena termino (lower s).
Proof.
  unfold es_monetaria. rewrite existsb_exists.
  split; intros [termino [Hin H]]; exists termino; split; try assumption;
    now apply contains_spec.
Qed.

(** C3. A string label is classified monetary exactly when its lowercase
    form contains one of the eight keywords, anywhere in the text, and is
    classified as other exactly when it contains none; so 'Precio Unitario'
    and 'PRECIOSO' are both monetary. *)
Theorem monetaria_ssi_palabra_clave (self : ExcelAnalyzer) (s : string) :
  let palabras := [ "monto"; "subtotal"; "iva"; "total"; "descuento";
                    "impuesto"; "factura"; "precio" ] in
  let clasificado := _identificar_columnas self in
  (In (EStr s) (columnas_monetarias clasificado) <->
     In (EStr s) (columns (df self)) /\
     exists termino, In termino palabras /\ subcadena termino (lower s)) /\
  (In (EStr s) (columnas_no_monetarias clasificado) <->
     In (EStr s) (columns (df self)) /\
     forall termino, In termino palabras -> ~ subcadena termino (lower s)) /\
  (forall unitario precioso cfg,
     columnas_monetarias
       (_identificar_columnas
          {| df := [(EStr "Precio Unitario", unitario); (EStr "PRECIOSO", precioso)];
             columnas_monetarias := [];
             columnas_no_monetarias := [];
             configuracion := cfg |})
     = [EStr "Precio Unitario"; EStr "PRECIOSO"]).
Proof.
  intros palabras clasificado. subst clasificado.
  rewrite monetarias_filter, no_monetarias_filter, !filter_In.
  fold COLUMNAS_FINANCIERAS in palabras. subst palabras.
  rewrite <- es_monetaria_spec.
  split; [reflexivity|]. split; [|reflexivity].
  split; intros [Hin H]; split; try assumption.
  - intros termino Ht Hsub.
    assert (E : es_monetaria (EStr s) = true)
      by (apply es_monetaria_spec; now exists termino).
    rewrite E in H. discriminate.
  - destruct (es_monetaria (EStr s)) eqn:E; [|reflexivity].
    apply es_monetaria_spec in E. destruct E as [termino [Ht Hsub]].
    now destruct (H termino Ht).
Qed.

(** C4. A label that is not a string is never classified monetary: it is
    among the other columns exactly when it is a label of the table. *)
Theorem no_cadena_no_monetaria (self : ExcelAnalyzer) (z : Z) :
  let clasificado := _identificar_columnas self in
  ~ In (EInt z) (columnas_monetarias clasificado) /\
  (In (EInt z) (columnas_no_monetarias clasificado) <->
     In (EInt z) (columns (df self))).
Proof.
  intros clasificado. subst clasificado.
  rewrite monetarias_filter, no_monetarias_filter, !filter_In. simpl.
  split; [intros [_ H]; discriminate | tauto].
Qed.

(** ** Equality tests *)

Lemma lista_eqb_eq {A : Type} (eqb : A -> A -> bool) :
  (forall a b, eqb a b = true -> a = b) ->
  forall l m, lista_eqb eqb l m = true -> l = m.
Proof.
  intros Heq. induction l as [|a l IH]; intros [|b m]; simpl; try discriminate.
  - reflexivity.
  - intros H. apply andb_true_iff in H. destruct H as [Hab Hlm].
    f_equal; [now apply Heq | now apply IH].
Qed.

Lemma dict_eqb_eq (a b : Dict) : dict_eqb a b = true -> a = b.
Proof.
  apply lista_eqb_eq. intros [k v] [k' v']; simpl. intros H.
  apply andb_true_iff in H. destruct H as [Hk Hv].
  apply String.eqb_eq in Hk. apply Qc_eq_bool_correct in Hv. congruence.
Qed.

(** ** Tables: selection and assignment *)

Lemma seleccion_In (d : DataFrame) (col : Etiqueta) (serie : Series) :
  In serie (seleccion d col) <-> In (col, serie) d.
Proof.
  unfold seleccion. rewrite in_map_iff. split.
  - intros [[l s] [Hs Hin]]. simpl in Hs. subst s.
    apply filter_In in Hin. destruct Hin as [Hin E]. simpl in E.
    apply etiqueta_eqb_eq in E. now subst.
  - intros Hin. exists (col, serie). split; [reflexivity|].
    apply filter_In. split; [assumption | apply etiqueta_eqb_refl].
Qed.

Lemma seleccion_map (g : Etiqueta * Series -> Etiqueta * Series) (d : DataFrame)
      (col : Etiqueta) :
  (forall c, fst (g c) = fst c) ->
  seleccion (map g d) col = map (fun c => snd (g c)) (filter (fun c => etiqueta_eqb (fst c) col) d).
Proof.
  intros Hg. unfold seleccion. induction d as [|c d IH]; simpl; [reflexivity|].
  rewrite Hg. destruct (etiqueta_eqb (fst c) col); simpl; now rewrite IH.
Qed.

Lemma seleccion_map_length (g : Etiqueta * Series -> Etiqueta * Series) (d : DataFrame)
      (col : Etiqueta) :
  (forall c, fst (g c) = fst c) ->
  List.length (seleccion (map g d) col) = List.length (seleccion d col).
Proof.
  intros Hg. rewrite seleccion_map by assumption.
  unfold seleccion. now rewrite !length_map.
Qed.

Lemma columns_map (g : Etiqueta * Series -> Etiqueta * Series) (d : DataFrame) :
  (forall c, fst (g c) = fst c) -> columns (map g d) = columns d.
Proof.
  intros Hg. unfold columns. rewrite map_map. apply map_ext. exact Hg.
Qed.

Lemma seleccion_nonempty (d : DataFrame) (col : Etiqueta) :
  seleccion d col <> [] ->
  existsb (fun c => etiqueta_eqb (fst c) col) d = true.
Proof.
  unfold seleccion. induction d as [|c d IH]; simpl; [congruence|].
  destruct (etiqueta_eqb (fst c) col); simpl; [reflexivity | exact IH].
Qed.

Lemma getitem_Ok (d : DataFrame) (col : Etiqueta) (serie : Series) :
  getitem d col = Ok serie <-> seleccion d col = [serie].
Proof.
  unfold getitem. destruct (seleccion d col) as [|x [|y r]]; split; intros H;
    try discriminate; congruence.
Qed.

Lemma getitem_Raise (d : DataFrame) (col : Etiqueta) :
  List.length (seleccion d col) <> 1%nat -> exists e, getitem d col = Raise e.
Proof.
  unfold getitem. destruct (seleccion d col) as [|x [|y r]]; simpl; intros H.
  - now exists KeyError.
  - congruence.
  - now exists TypeError.
Qed.

(** Assigning to the one column labelled [col]. *)
Lemma setitem_unica (d : DataFrame) (col : Etiqueta) (x serie : Series) :
  seleccion d col = [x] ->
  setitem d col serie
  = map (fun c => if etiqueta_eqb (fst c) col then (fst c, serie) else c) d /\
  seleccion (setitem d col serie) col = [serie].
Proof.
  intros Hx.
  assert (E : setitem d col serie
              = map (fun c => if etiqueta_eqb (fst c) col then (fst c, serie) else c) d).
  { unfold setitem. rewrite seleccion_nonempty; [reflexivity|]. rewrite Hx. discriminate. }
  split; [exact E|]. rewrite E, seleccion_map.
  - unfold seleccion in Hx.
    destruct (filter (fun c => etiqueta_eqb (fst c) col) d) as [|c [|c' r]] eqn:F;
      try discriminate.
    simpl. assert (Hc : In c (filter (fun c => etiqueta_eqb (fst c) col) d))
      by (rewrite F; now left).
    apply filter_In in Hc. destruct Hc as [_ Hc]. now rewrite Hc.
  - intros c. now destruct (etiqueta_eqb (fst c) col).
Qed.

(** ** Numeric coercion *)

Section Coercion.

Variable parse_numero : string -> option Qc.

Local Abbreviation interp := (interpretar parse_numero).
Local Abbreviation prep := (preparada parse_numero).
Local Abbreviation paso := (preparar_columna parse_numero).
Local Abbreviation pasada := (_preparar_columnas_financieras parse_numero).

(** The column labelled [col] coerced, the others as they are. *)
Local Abbreviation coaccionar col :=
  (fun c : Etiqueta * Series =>
     if etiqueta_eqb (fst c) col then (fst c, map interp (snd c)) else c).

(** The columns labelled in [L] that pass the keyword test coerced. *)
Local Abbreviation coaccionar_lista L :=
  (fun c : Etiqueta * Series =>
     if es_monetaria (fst c) && en_lista (fst c) L
     then (fst c, map interp (snd c)) else c).

Lemma fillna_to_numeric (serie : Series) :
  fillna (to_numeric parse_numero serie) 0%Qc = map interp serie.
Proof.
  unfold fillna, to_numeric. rewrite map_map. apply map_ext.
  intros [q|s| |]; simpl; try reflexivity. now destruct (parse_numero s).
Qed.

Lemma interpretar_es_numero (c : Celda) : es_numero (interp c) = true.
Proof. destruct c as [q|s| |]; simpl; try reflexivity. now destruct (parse_numero s). Qed.

Lemma interpretar_numero (c : Celda) : es_numero c = true -> interp c = c.
Proof. destruct c; simpl; intros H; try discriminate. reflexivity. Qed.

Lemma interpretar_idem (c : Celda) : interp (interp c) = interp c.
Proof. apply interpretar_numero, interpretar_es_numero. Qed.

Lemma map_interpretar_idem (serie : Series) :
  map interp (map interp serie) = map interp serie.
Proof. rewrite map_map. apply map_ext, interpretar_idem. Qed.

Lemma map_interpretar_numeros (serie : Series) :
  forallb es_numero serie = true -> map interp serie = serie.
Proof.
  induction serie as [|c serie IH]; simpl; [reflexivity|].
  intros H. apply andb_true_iff in H. destruct H as [Hc Hs].
  now rewrite interpretar_numero, IH.
Qed.

Lemma preparar_columna_otra (d : DataFrame) (col : Etiqueta) :
  es_monetaria col = false -> paso d col = Ok d.
Proof.
  destruct col as [s|z]; simpl; [|reflexivity]. intros E.
  unfold preparar_columna. cbv zeta.
  change (existsb (fun termino => contains termino (lower s)) COLUMNAS_FINANCIERAS)
    with (es_monetaria (EStr s)).
  now rewrite E.
Qed.

Lemma preparar_columna_monetaria (d : DataFrame) (col : Etiqueta) :
  es_monetaria col = true ->
  List.length (seleccion d col) = 1%nat ->
  paso d col = Ok (map (coaccionar col) d).
Proof.
  intros E Hlen.
  destruct (seleccion d col) as [|x [|y r]] eqn:Hx; try discriminate. clear Hlen.
  destruct col as [s|z]; [|discriminate].
  unfold preparar_columna. cbv zeta.
  change (existsb (fun termino => contains termino (lower s)) COLUMNAS_FINANCIERAS)
    with (es_monetaria (EStr s)).
  rewrite E.
  assert (G1 : getitem d (EStr s) = Ok x) by now apply getitem_Ok.
  rewrite G1. simpl bind.
  destruct (setitem_unica d (EStr s) x (to_numeric parse_numero x) Hx) as [S1 X1].
  assert (G2 : getitem (setitem d (EStr s) (to_numeric parse_numero x)) (EStr s)
               = Ok (to_numeric parse_numero x)) by now apply getitem_Ok.
  rewrite G2. simpl bind. f_equal.
  destruct (setitem_unica _ (EStr s) _ (fillna (to_numeric parse_numero x) 0%Qc) X1)
    as [S2 _].
  rewrite S2, S1, map_map. apply map_ext_in. intros [l v] Hin. simpl.
  destruct (etiqueta_eqb l (EStr s)) eqn:El; simpl; rewrite El; [|reflexivity].
  apply etiqueta_eqb_eq in El. subst l.
  assert (Hv : In v (seleccion d (EStr s))) by now apply seleccion_In.
  rewrite Hx in Hv. destruct Hv as [<- | []].
  now rewrite fillna_to_numeric.
Qed.

Lemma preparar_columna_falla (d : DataFrame) (col : Etiqueta) :
  es_monetaria col = true ->
  List.length (seleccion d col) <> 1%nat ->
  exists e, paso d col = Raise e.
Proof.
  intros E Hlen. destruct col as [s|z]; [|discriminate].
  unfold preparar_columna. cbv zeta.
  change (existsb (fun termino => contains termino (lower s)) COLUMNAS_FINANCIERAS)
    with (es_monetaria (EStr s)).
  rewrite E. destruct (getitem_Raise d (EStr s) Hlen) as [e He].
  exists e. now rewrite He.
Qed.

Lemma coaccionar_fst (col : Etiqueta) (c : Etiqueta * Series) :
  fst (coaccionar col c) = fst c.
Proof. cbv beta. now destruct (etiqueta_eqb (fst c) col). Qed.

Lemma bucle_preparar (L : list Etiqueta) :
  forall d : DataFrame,
    (forall col, In col L -> es_monetaria col = true ->
                 List.length (seleccion d col) = 1%nat) ->
    for_each paso L d = Ok (map (coaccionar_lista L) d).
Proof.
  induction L as [|col L IH]; intros d Hd; simpl.
  - f_equal. rewrite <- (map_id d) at 1. apply map_ext.
    intros c. now rewrite andb_false_r.
  - destruct (es_monetaria col) eqn:E.
    + rewrite preparar_columna_monetaria; [|assumption | apply Hd; [now left | assumption]].
      simpl bind. rewrite IH.
      * f_equal. rewrite map_map. apply map_ext. intros [l v]. simpl.
        destruct (etiqueta_eqb l col) eqn:El; simpl.
        -- apply etiqueta_eqb_eq in El. subst l. rewrite E. simpl.
           rewrite map_interpretar_idem. now destruct (en_lista col L).
        -- reflexivity.
      * intros col' Hin E'. rewrite seleccion_map_length by apply coaccionar_fst.
        apply Hd; [now right | assumption].
    + rewrite preparar_columna_otra by assumption. simpl bind. rewrite IH.
      * f_equal. apply map_ext. intros [l v]. simpl.
        destruct (etiqueta_eqb l col) eqn:El; simpl; [|reflexivity].
        apply etiqueta_eqb_eq in El. subst l. now rewrite E.
      * intros col' Hin E'. apply Hd; [now right | assumption].
Qed.

Lemma bucle_preparar_Ok (L : list Etiqueta) :
  forall d d' : DataFrame,
    for_each paso L d = Ok d' ->
    forall col, In col L -> es_monetaria col = true ->
                List.length (seleccion d col) = 1%nat.
Proof.
  induction L as [|col L IH]; intros d d' Hrun col' Hin E'; [destruct Hin|].
  simpl in Hrun.
  destruct (es_monetaria col) eqn:E.
  - destruct (Nat.eq_dec (List.length (seleccion d col)) 1) as [Hlen | Hlen].
    + rewrite preparar_columna_monetaria in Hrun by assumption. simpl in Hrun.
      destruct Hin as [<- | Hin]; [assumption|].
      rewrite <- (seleccion_map_length (coaccionar col)) by apply coaccionar_fst.
      now apply (IH _ _ Hrun).
    + destruct (preparar_columna_falla d col E Hlen) as [e He].
      rewrite He in Hrun. discriminate.
  - rewrite preparar_columna_otra in Hrun by assumption. simpl in Hrun.
    destruct Hin as [<- | Hin]; [congruence|].
    now apply (IH _ _ Hrun).
Qed.

Lemma preparada_fst (c : Etiqueta * Series) : fst (prep c) = fst c.
Proof. unfold preparada. now destruct (es_monetaria (fst c)). Qed.

(** The coercion pass succeeds exactly on the tables whose monetary labels
    are not repeated, and then coerces each monetary column. *)
Lemma preparar_spec (d d' : DataFrame) :
  pasada d = Ok d' <-> unicas d /\ d' = map prep d.
Proof.
  assert (F : map (coaccionar_lista (columns d)) d = map prep d).
  { apply map_ext_in. intros c Hc. unfold preparada.
    assert (H : en_lista (fst c) (columns d) = true)
      by (apply en_lista_In; unfold columns; now apply in_map).
    now rewrite H, andb_true_r. }
  unfold _preparar_columnas_financieras. split.
  - intros Hrun.
    assert (U : unicas d) by (intros col; now apply (bucle_preparar_Ok _ _ _ Hrun)).
    split; [assumption|]. rewrite bucle_preparar in Hrun by exact U. congruence.
  - intros [U ->]. rewrite bucle_preparar by exact U. now rewrite F.
Qed.

Lemma NoDup_seleccion (d : DataFrame) :
  NoDup (columns d) ->
  forall col, In col (columns d) -> List.length (seleccion d col) = 1%nat.
Proof.
  unfold columns. induction d as [|[l v] d IH]; simpl; [intros _ col []|].
  intros Hnd col Hin. inversion Hnd as [|? ? Hnot Hnd']; subst.
  unfold seleccion. simpl. destruct (etiqueta_eqb l col) eqn:El.
  - apply etiqueta_eqb_eq in El. subst l. simpl. f_equal.
    fold (seleccion d col).
    destruct (seleccion d col) as [|x r] eqn:Hx; [reflexivity|].
    exfalso. apply Hnot.
    assert (Hx' : In x (seleccion d col)) by (rewrite Hx; now left).
    apply seleccion_In in Hx'. now apply (in_map fst) in Hx'.
  - destruct Hin as [-> | Hin]; [now rewrite etiqueta_eqb_refl in El|].
    now apply IH.
Qed.

Lemma NoDup_unicas (d : DataFrame) : NoDup (columns d) -> unicas d.
Proof. intros Hnd col Hin _. now apply NoDup_seleccion. Qed.

Lemma preparada_idem (c : Etiqueta * Series) : prep (prep c) = prep c.
Proof.
  unfold preparada. destruct (es_monetaria (fst c)) eqn:E; simpl; rewrite E.
  - now rewrite map_interpretar_idem.
  - reflexivity.
Qed.

Lemma unicas_preparada (d : DataFrame) : unicas d -> unicas (map prep d).
Proof.
  intros U col Hin E. rewrite columns_map in Hin by apply preparada_fst.
  rewrite seleccion_map_length by apply preparada_fst. now apply U.
Qed.

Lemma identificar_preparada (hoja : DataFrame) (m n : list Etiqueta) (c : Configuracion) :
  _identificar_columnas
    {| df := map prep hoja; columnas_monetarias := m;
       columnas_no_monetarias := n; configuracion := c |}
  = {| df := map prep hoja;
       columnas_monetarias := filter es_monetaria (columns hoja);
       columnas_no_monetarias :=
         filter (fun col => negb (es_monetaria col)) (columns hoja);
       configuracion := c |}.
Proof.
  set (self := {| df := map prep hoja; columnas_monetarias := m;
                  columnas_no_monetarias := n; configuracion := c |}).
  pose proof (monetarias_filter self) as M.
  pose proof (no_monetarias_filter self) as N.
  simpl df in M, N. rewrite columns_map in M, N by apply preparada_fst.
  rewrite <- M, <- N. reflexivity.
Qed.

(** What [__init__] leaves in the analyzer. *)
Lemma init_spec (hoja : DataFrame) (cfg : option Configuracion) (self : ExcelAnalyzer) :
  init parse_numero hoja cfg = Ok self <->
  unicas hoja /\
  self = {| df := map prep hoja;
            columnas_monetarias := filter es_monetaria (columns hoja);
            columnas_no_monetarias :=
              filter (fun col => negb (es_monetaria col)) (columns hoja);
            configuracion := match cfg with
                             | Some c => c
                             | None => configuracion_vacia
                             end |}.
Proof.
  unfold init. split.
  - destruct (pasada hoja) as [d|e] eqn:P; simpl; [|discriminate].
    apply preparar_spec in P. destruct P as [U ->].
    rewrite identificar_preparada. intros H. split; [assumption|]. now injection H.
  - intros [U ->].
    assert (P : pasada hoja = Ok (map prep hoja)) by now apply preparar_spec.
    rewrite P. simpl bind. now rewrite identificar_preparada.
Qed.

End Coercion.

(** C5. On a sheet whose labels are distinct the coercion pass does not
    raise; each monetary column keeps its length, each of its cells becomes
    its numeric interpretation (a number stays, a text becomes the number it
    denotes), a cell that is not a number and cannot be parsed becomes
    exactly zero, so every cell of the result is a number, and a column
    without rows stays without rows. *)
Theorem coercion_nunca_falla (parse_numero : string -> option Qc) (hoja : DataFrame) :
  NoDup (columns hoja) ->
  exists preparado,
    _preparar_columnas_financieras parse_numero hoja = Ok preparado /\
    columns preparado = columns hoja /\
    forall col serie,
      In (col, serie) hoja -> es_monetaria col = true ->
      exists numerica,
        getitem preparado col = Ok numerica /\
        List.length numerica = List.length serie /\
        forallb es_numero numerica = true /\
        (serie = [] -> numerica = []) /\
        forall i c,
          nth_error serie i = Some c ->
          nth_error numerica i
          = Some (match c with
                  | Num q => Num q
                  | Texto s => match parse_numero s with
                               | Some q => Num q
                               | None => Num 0%Qc
                               end
                  | NaN | Nulo => Num 0%Qc
                  end).
Proof.
  intros Hnd. exists (map (preparada parse_numero) hoja).
  assert (U : unicas hoja) by now apply NoDup_unicas.
  split; [now apply preparar_spec|].
  split; [apply columns_map, preparada_fst|].
  intros col serie Hin E. exists (map (interpretar parse_numero) serie).
  split; [|split; [apply length_map | split; [|split]]].
  - apply getitem_Ok.
    assert (Hlen : List.length (seleccion (map (preparada parse_numero) hoja) col) = 1%nat).
    { rewrite seleccion_map_length by apply preparada_fst.
      apply NoDup_seleccion; [assumption|].
      unfold columns. now apply (in_map fst) in Hin. }
    destruct (seleccion _ col) as [|x [|y r]] eqn:Hx; try discriminate.
    f_equal.
    assert (Hm : In (map (interpretar parse_numero) serie)
                    (seleccion (map (preparada parse_numero) hoja) col)).
    { apply seleccion_In. apply in_map_iff. exists (col, serie).
      split; [|assumption]. unfold preparada. simpl. now rewrite E. }
    rewrite Hx in Hm. now destruct Hm as [-> | []].
  - rewrite forallb_forall. intros c Hc. apply in_map_iff in Hc.
    destruct Hc as [c0 [<- _]]. apply interpretar_es_numero.
  - now intros ->.
  - intros i c Hc. rewrite nth_error_map, Hc. reflexivity.
Qed.

Lemma coercion_nunca_falla_witness :
  exists preparado,
    _preparar_columnas_financieras parse_entero hoja_monto = Ok preparado /\
    columns preparado = columns hoja_monto /\
    forall col serie,
      In (col, serie) hoja_monto -> es_monetaria col = true ->
      exists numerica,
        getitem preparado col = Ok numerica /\
        List.length numerica = List.length serie /\
        forallb es_numero numerica = true /\
        (serie = [] -> numerica = []) /\
        forall i c,
          nth_error serie i = Some c ->
          nth_error numerica i
          = Some (match c with
                  | Num q => Num q
                  | Texto s => match parse_entero s with
                               | Some q => Num q
                               | None => Num 0%Qc
                               end
                  | NaN | Nulo => Num 0%Qc
                  end).
Proof.
  apply (coercion_nunca_falla parse_entero hoja_monto).
  simpl. constructor; [intros [] | constructor].
Defined.

(** C8. Coercion is idempotent: a column of numbers is returned as it is,
    coercing a coerced column changes nothing, and a second coercion pass
    over a prepared table succeeds and returns the same table. *)
Theorem coercion_idempotente (parse_numero : string -> option Qc) :
  (forall serie,
     forallb es_numero serie = true ->
     fillna (to_numeric parse_numero serie) 0%Qc = serie) /\
  (forall serie,
     fillna (to_numeric parse_numero (fillna (to_numeric parse_numero serie) 0%Qc)) 0%Qc
     = fillna (to_numeric parse_numero serie) 0%Qc) /\
  (forall hoja preparado,
     _preparar_columnas_financieras parse_numero hoja = Ok preparado ->
     _preparar_columnas_financieras parse_numero preparado = Ok preparado).
Proof.
  split; [|split].
  - intros serie H. rewrite fillna_to_numeric. now apply map_interpretar_numeros.
  - intros serie. rewrite !fillna_to_numeric. apply map_interpretar_idem.
  - intros hoja preparado H. apply preparar_spec in H. destruct H as [U ->].
    apply preparar_spec. split; [now apply unicas_preparada|].
    rewrite map_map. apply map_ext. intros c. now rewrite preparada_idem.
Qed.

Lemma coercion_idempotente_witness :
  fillna (to_numeric parse_entero [Num (Q2Qc 100); Num (Q2Qc 200)]) 0%Qc
  = [Num (Q2Qc 100); Num (Q2Qc 200)] /\
  exists preparado,
    _preparar_columnas_financieras parse_entero hoja_mixta = Ok preparado /\
    _preparar_columnas_financieras parse_entero preparado = Ok preparado.
Proof.
  split.
  - apply (proj1 (coercion_idempotente parse_entero)). reflexivity.
  - assert (H : _preparar_columnas_financieras parse_entero hoja_mixta
               = Ok (map (preparada parse_entero) hoja_mixta)).
    { apply preparar_spec. split; [|reflexivity]. apply NoDup_unicas.
      simpl. repeat constructor; simpl; intuition discriminate. }
    exists (map (preparada parse_entero) hoja_mixta). split; [exact H|].
    exact (proj2 (proj2 (coercion_idempotente parse_entero)) hoja_mixta _ H).
Defined.

(** C9. The coercion pass changes monetary columns only: after [__init__],
    the table has the labels of the sheet, in the same order, and every
    column classified as not monetary, and so every column whose label is
    not a string, holds at its position the cells of the sheet, unchanged in
    value and in kind. *)
Theorem coercion_solo_monetarias (parse_numero : string -> option Qc)
        (hoja : DataFrame) (cfg : option Configuracion) (self : ExcelAnalyzer) :
  init parse_numero hoja cfg = Ok self ->
  columns (df self) = columns hoja /\
  (forall i col serie,
     nth_error hoja i = Some (col, serie) ->
     In col (columnas_no_monetarias self) ->
     nth_error (df self) i = Some (col, serie) /\ getitem (df self) col = getitem hoja col) /\
  (forall i z serie,
     nth_error hoja i = Some (EInt z, serie) ->
     In (EInt z) (columnas_no_monetarias self) /\
     nth_error (df self) i = Some (EInt z, serie)).
Proof.
  intros H. apply init_spec in H. destruct H as [U ->]. simpl.
  assert (F : forall i col serie,
             nth_error hoja i = Some (col, serie) -> es_monetaria col = false ->
             nth_error (map (preparada parse_numero) hoja) i = Some (col, serie)).
  { intros i col serie Hi E. rewrite nth_error_map, Hi. simpl.
    unfold preparada. simpl. now rewrite E. }
  split; [apply columns_map, preparada_fst | split].
  - intros i col serie Hi Hin. apply filter_In in Hin. destruct Hin as [_ E].
    apply negb_true_iff in E. split; [now apply F|].
    unfold getitem. rewrite seleccion_map by apply preparada_fst.
    unfold seleccion.
    replace (map (fun c => snd (preparada parse_numero c))
               (filter (fun c => etiqueta_eqb (fst c) col) hoja))
      with (map snd (filter (fun c => etiqueta_eqb (fst c) col) hoja)); [reflexivity|].
    apply map_ext_in. intros [l v] Hl.
    apply filter_In in Hl. destruct Hl as [_ Hl]. simpl in Hl.
    apply etiqueta_eqb_eq in Hl. subst l. unfold preparada. simpl. now rewrite E.
  - intros i z serie Hi. split; [|now apply F].
    apply filter_In. split; [|reflexivity].
    apply nth_error_In in Hi. unfold columns. now apply (in_map fst) in Hi.
Qed.

Lemma coercion_solo_monetarias_witness :
  exists self,
    init parse_entero hoja_mixta None = Ok self /\
    nth_error (df self) 0 = Some (EStr "Fecha", [Texto "2024-01-05"; Texto "2024-01-06"]) /\
    nth_error (df self) 2 = Some (EInt 2024, [Texto "12"; NaN]).
Proof.
  destruct (init parse_entero hoja_mixta None) as [self|e] eqn:E; [|discriminate E].
  exists self. split; [reflexivity|].
  destruct (coercion_solo_monetarias parse_entero hoja_mixta None self E) as [_ [F G]].
  split.
  - apply (F 0%nat (EStr "Fecha")); [reflexivity|].
    apply init_spec in E. destruct E as [_ ->]. simpl. now left.
  - apply (G 2%nat 2024%Z). reflexivity.
Defined.

(** ** The dictionary of totals *)

Lemma dict_get_set (d : Dict) (k k' : string) (v : Qc) :
  dict_get (dict_set d k v) k' = if String.eqb k k' then Some v else dict_get d k'.
Proof.
  induction d as [|[k0 v0] d IH]; simpl.
  - reflexivity.
  - destruct (String.eqb k0 k) eqn:E0; simpl.
    + apply String.eqb_eq in E0. subst k0. now destruct (String.eqb k k').
    + rewrite IH. destruct (String.eqb k0 k') eqn:E1; [|reflexivity].
      apply String.eqb_eq in E1. subst k0. rewrite String.eqb_sym in E0. now rewrite E0.
Qed.

Lemma dict_set_keys_present (d : Dict) (k : string) (v : Qc) :
  In k (map fst d) -> map fst (dict_set d k v) = map fst d.
Proof.
  induction d as [|[k0 v0] d IH]; simpl; [intros []|].
  intros H. destruct (String.eqb k0 k) eqn:E; simpl; [reflexivity|].
  f_equal. apply IH. destruct H as [-> | H]; [|assumption].
  now rewrite String.eqb_refl in E.
Qed.

Lemma dict_set_keys_absent (d : Dict) (k : string) (v : Qc) :
  ~ In k (map fst d) -> map fst (dict_set d k v) = (map fst d ++ [k])%list.
Proof.
  induction d as [|[k0 v0] d IH]; simpl; [reflexivity|].
  intros H. destruct (String.eqb k0 k) eqn:E; simpl.
  - apply String.eqb_eq in E. tauto.
  - f_equal. apply IH. tauto.
Qed.

Lemma dict_set_NoDup (d : Dict) (k : string) (v : Qc) :
  NoDup (map fst d) -> NoDup (map fst (dict_set d k v)).
Proof.
  intros H. destruct (in_dec string_dec k (map fst d)) as [Hin | Hout].
  - now rewrite dict_set_keys_present.
  - rewrite dict_set_keys_absent by assumption.
    apply NoDup_app; [assumption | repeat constructor; intros [] |].
    intros x Hx [<- | []]. tauto.
Qed.

Lemma dict_get_In (d : Dict) (k : string) :
  dict_get d k <> None <-> In k (map fst d).
Proof.
  induction d as [|[k0 v0] d IH]; simpl; [tauto|].
  destruct (String.eqb k0 k) eqn:E.
  - apply String.eqb_eq in E. split; [now left | discriminate].
  - rewrite IH. apply String.eqb_neq in E. tauto.
Qed.

(** ** Column totals *)

Lemma Series_sum_numeros (serie : Series) :
  forallb es_numero serie = true -> Series_sum serie = Ok (suma_numeros serie).
Proof.
  induction serie as [|c serie IH]; simpl; [reflexivity|].
  destruct c; simpl; try discriminate. intros H. now rewrite IH.
Qed.

Lemma filter_es_monetaria (l : list Etiqueta) :
  filter es_monetaria l
  = map EStr (filter (fun s => es_monetaria (EStr s)) (nombres_de l)).
Proof.
  induction l as [|[s|z] l IH]; [reflexivity | | exact IH].
  cbn [filter nombres_de]. destruct (es_monetaria (EStr s)); simpl; now rewrite IH.
Qed.

Lemma total_de_columna_numerica (self : ExcelAnalyzer) (totales : Dict) (nombre : string) :
  numerica (df self) nombre ->
  total_de_columna self totales (EStr nombre)
  = Ok (anotar (configuracion self) totales nombre (total_de (df self) (EStr nombre))).
Proof.
  intros [serie [G N]]. unfold total_de_columna, total_de, anotar, grava.
  rewrite G. simpl bind. rewrite (Series_sum_numeros _ N). simpl bind. simpl str.
  destruct (get_calcular_iva (configuracion self)); simpl; [|reflexivity].
  now destruct (contains "iva" (lower nombre)).
Qed.

Lemma bucle_totales_numericas (self : ExcelAnalyzer) (nombres : list string) :
  (forall nombre, In nombre nombres -> numerica (df self) nombre) ->
  forall totales,
    bucle_totales self (map EStr nombres) totales = Ok (anotar_todas self nombres totales).
Proof.
  unfold bucle_totales, anotar_todas.
  induction nombres as [|nombre nombres IH]; intros H totales; simpl; [reflexivity|].
  rewrite total_de_columna_numerica by (apply H; now left). simpl bind.
  apply IH. intros n Hn. apply H. now right.
Qed.

Lemma anotar_todas_app (self : ExcelAnalyzer) (xs ys : list string) (totales : Dict) :
  anotar_todas self (xs ++ ys) totales = anotar_todas self ys (anotar_todas self xs totales).
Proof. unfold anotar_todas. apply fold_left_app. Qed.

(** The labels that [__init__] classifies as monetary name numeric columns
    of the prepared table. *)
Lemma init_numericas (parse_numero : string -> option Qc) (hoja : DataFrame)
      (cfg : option Configuracion) (self : ExcelAnalyzer) :
  init parse_numero hoja cfg = Ok self ->
  exists nombres,
    columnas_monetarias self = map EStr nombres /\
    forall nombre, In nombre nombres ->
      numerica (df self) nombre /\
      total_de (df self) (EStr nombre)
      = suma_numeros (map (interpretar parse_numero)
                          (match getitem hoja (EStr nombre) with
                           | Ok serie => serie
                           | Raise _ => []
                           end)).
Proof.
  intros H. apply init_spec in H. destruct H as [U ->]. simpl.
  exists (filter (fun s => es_monetaria (EStr s)) (nombres_de (columns hoja))).
  split; [apply filter_es_monetaria|].
  intros nombre Hin.
  assert (Hm : In (EStr nombre) (filter es_monetaria (columns hoja)))
    by (rewrite filter_es_monetaria; now apply in_map).
  apply filter_In in Hm. destruct Hm as [Hcol E].
  pose proof (U _ Hcol E) as Hlen.
  destruct (seleccion hoja (EStr nombre)) as [|x [|y r]] eqn:Hx; try discriminate.
  assert (Hsel : seleccion (map (preparada parse_numero) hoja) (EStr nombre)
                 = [map (interpretar parse_numero) x]).
  { rewrite seleccion_map by apply preparada_fst.
    unfold seleccion in Hx.
    destruct (filter (fun c => etiqueta_eqb (fst c) (EStr nombre)) hoja)
      as [|[l v] [|c' r']] eqn:F; try discriminate.
    simpl in Hx. injection Hx as ->.
    assert (Hl : In (l, x) (filter (fun c => etiqueta_eqb (fst c) (EStr nombre)) hoja))
      by (rewrite F; now left).
    apply filter_In in Hl. destruct Hl as [_ Hl]. simpl in Hl.
    apply etiqueta_eqb_eq in Hl. subst l.
    simpl. unfold preparada. simpl fst. now rewrite E. }
  assert (G : getitem (map (preparada parse_numero) hoja) (EStr nombre)
              = Ok (map (interpretar parse_numero) x)) by now apply getitem_Ok.
  assert (G0 : getitem hoja (EStr nombre) = Ok x) by now apply getitem_Ok.
  split.
  - exists (map (interpretar parse_numero) x). split; [exact G|].
    rewrite forallb_forall. intros c Hc. apply in_map_iff in Hc.
    destruct Hc as [c0 [<- _]]. apply interpretar_es_numero.
  - unfold total_de. now rewrite G, G0.
Qed.

(** ** Keys written by the loop *)

Lemma dict_get_anotar_iva (c : Configuracion) (t : Dict) (n s : string) (total : Qc) :
  dict_get (anotar c t n total) ("IVA de " ++ s)
  = if String.eqb n s && grava c n
    then Some (total * get_iva_rate c)%Qc
    else dict_get t ("IVA de " ++ s).
Proof.
  unfold anotar. destruct (grava c n); rewrite ?dict_get_set.
  - change ("Total con IVA de " ++ n =? "IVA de " ++ s) with false.
    change ("IVA de " ++ n =? "IVA de " ++ s) with (n =? s).
    change ("Total " ++ n =? "IVA de " ++ s) with false.
    now destruct (n =? s).
  - change ("Total " ++ n =? "IVA de " ++ s) with false.
    now rewrite andb_false_r.
Qed.

Lemma dict_get_anotar_factura (c : Configuracion) (t : Dict) (n : string) (total : Qc) :
  dict_get (anotar c t n total) "Total Factura"
  = if String.eqb n "Factura" then Some total else dict_get t "Total Factura".
Proof.
  unfold anotar. destruct (grava c n); rewrite ?dict_get_set.
  - change ("Total con IVA de " ++ n =? "Total Factura") with false.
    change ("IVA de " ++ n =? "Total Factura") with false.
    change ("Total " ++ n =? "Total Factura") with (n =? "Factura").
    reflexivity.
  - change ("Total " ++ n =? "Total Factura") with (n =? "Factura").
    reflexivity.
Qed.

Lemma dict_set_In_keys (d : Dict) (k k' : string) (v : Qc) :
  In k (map fst d) \/ k = k' -> In k (map fst (dict_set d k' v)).
Proof.
  intros H. apply dict_get_In. rewrite dict_get_set.
  destruct (String.eqb k' k) eqn:E; [discriminate|].
  apply dict_get_In. destruct H as [H | ->]; [assumption|].
  now rewrite String.eqb_refl in E.
Qed.

Lemma anotar_keys_mono (c : Configuracion) (t : Dict) (n : string) (total : Qc) (k : string) :
  In k (map fst t) -> In k (map fst (anotar c t n total)).
Proof.
  intros H. unfold anotar.
  destruct (grava c n); repeat (apply dict_set_In_keys; left); assumption.
Qed.

Lemma anotar_NoDup (c : Configuracion) (t : Dict) (n : string) (total : Qc) :
  NoDup (map fst t) -> NoDup (map fst (anotar c t n total)).
Proof.
  intros H. unfold anotar.
  destruct (grava c n); repeat apply dict_set_NoDup; assumption.
Qed.

Lemma anotar_todas_keys_mono (self : ExcelAnalyzer) (nombres : list string) :
  forall t k, In k (map fst t) -> In k (map fst (anotar_todas self nombres t)).
Proof.
  unfold anotar_todas.
  induction nombres as [|n nombres IH]; intros t k H; simpl; [assumption|].
  now apply IH, anotar_keys_mono.
Qed.

Lemma anotar_todas_NoDup (self : ExcelAnalyzer) (nombres : list string) :
  forall t, NoDup (map fst t) -> NoDup (map fst (anotar_todas self nombres t)).
Proof.
  unfold anotar_todas.
  induction nombres as [|n nombres IH]; intros t H; simpl; [assumption|].
  now apply IH, anotar_NoDup.
Qed.

Lemma dict_get_anotar_todas_iva (self : ExcelAnalyzer) (nombres : list string) (s : string) :
  forall t,
    dict_get (anotar_todas self nombres t) ("IVA de " ++ s)
    = if existsb (String.eqb s) nombres && grava (configuracion self) s
      then Some (total_de (df self) (EStr s) * get_iva_rate (configuracion self))%Qc
      else dict_get t ("IVA de " ++ s).
Proof.
  unfold anotar_todas.
  induction nombres as [|n nombres IH]; intros t; simpl; [reflexivity|].
  rewrite IH, dict_get_anotar_iva. rewrite (String.eqb_sym s n).
  destruct (String.eqb n s) eqn:E; simpl; [|reflexivity].
  apply String.eqb_eq in E. subst n.
  destruct (grava (configuracion self) s); [|now rewrite !andb_false_r].
  now rewrite andb_true_r; destruct (existsb (String.eqb s) nombres).
Qed.

Lemma dict_get_anotar_todas_factura (self : ExcelAnalyzer) (nombres : list string) :
  forall t,
    dict_get (anotar_todas self nombres t) "Total Factura"
    = if existsb (String.eqb "Factura") nombres
      then Some (total_de (df self) (EStr "Factura"))
      else dict_get t "Total Factura".
Proof.
  unfold anotar_todas.
  induction nombres as [|n nombres IH]; intros t; cbn [fold_left existsb]; [reflexivity|].
  rewrite IH, dict_get_anotar_factura. rewrite (String.eqb_sym "Factura" n).
  destruct (String.eqb n "Factura") eqn:E; cbn [orb]; [|reflexivity].
  apply String.eqb_eq in E. subst n.
  now destruct (existsb (String.eqb "Factura") nombres).
Qed.

(** ** Financial totals *)

(** After [__init__] the aggregation does not raise: it returns the entries
    of the monetary columns followed by the grand total. *)
Lemma calcular_totales_spec (parse_numero : string -> option Qc) (hoja : DataFrame)
      (cfg : option Configuracion) (self : ExcelAnalyzer) :
  init parse_numero hoja cfg = Ok self ->
  exists nombres,
    columnas_monetarias self = map EStr nombres /\
    (forall nombre, In nombre nombres -> numerica (df self) nombre) /\
    bucle_totales self (columnas_monetarias self) [] = Ok (anotar_todas self nombres []) /\
    calcular_totales_financieros self
    = Ok (dict_set (anotar_todas self nombres []) "Total Factura"
            (py_sum (valores_con_iva (anotar_todas self nombres [])))).
Proof.
  intros H. destruct (init_numericas _ _ _ _ H) as [nombres [M N]].
  exists nombres. split; [exact M|].
  assert (N' : forall nombre, In nombre nombres -> numerica (df self) nombre)
    by (intros n Hn; now apply N).
  split; [exact N'|].
  unfold calcular_totales_financieros. rewrite M.
  rewrite (bucle_totales_numericas self nombres N'). split; reflexivity.
Qed.

Lemma map_EStr_split (nombres : list string) (antes despues : list Etiqueta) (nombre : string) :
  map EStr nombres = (antes ++ EStr nombre :: despues)%list ->
  exists xs ys, nombres = (xs ++ nombre :: ys)%list /\ antes = map EStr xs /\ despues = map EStr ys.
Proof.
  intros H. apply map_eq_app in H. destruct H as [xs [r [-> [Hx Hr]]]].
  apply map_eq_cons in Hr. destruct Hr as [n [ys [-> [Hn Hy]]]].
  injection Hn as ->. now exists xs, ys.
Qed.

(** C6. The entries 'IVA de <column>' = total * rate and 'Total con IVA de
    <column>' = total + tax are written for a monetary column exactly when
    [calcular_iva] holds and the lowercase name does not contain 'iva':
    then the iteration for the column adds them after 'Total <column>' and
    the returned mapping holds the tax under 'IVA de <column>' and has the
    key 'Total con IVA de <column>'; otherwise the iteration adds only
    'Total <column>' and the returned mapping has no 'IVA de <column>'.  An
    absent [calcular_iva] counts as true and an absent [iva_rate] as 0.16.
    A sheet with the one column 'IVA' = [10, 20] gives 'Total IVA' = 30 and
    'Total Factura' = 0 and nothing else; next to 'Precio' = [100, 200] the
    column 'IVA' adds 'Total IVA' = 30 only and 'Total Factura' stays 348. *)
Theorem iva_por_columna (parse_numero : string -> option Qc) :
  (forall tasa, get_calcular_iva {| calcular_iva := None; iva_rate := tasa |} = true) /\
  (forall b tasa, get_calcular_iva {| calcular_iva := Some b; iva_rate := tasa |} = b) /\
  (forall b, get_iva_rate {| calcular_iva := b; iva_rate := None |} = Q2Qc (16 # 100)) /\
  (forall b tasa, get_iva_rate {| calcular_iva := b; iva_rate := Some tasa |} = tasa) /\
  (forall tasa,
     exists self,
       init parse_numero [(EStr "IVA", [Num (Q2Qc 10); Num (Q2Qc 20)])]
            (Some {| calcular_iva := Some true; iva_rate := tasa |}) = Ok self /\
       calcular_totales_financieros self
       = Ok [("Total IVA", Q2Qc 30); ("Total Factura", 0%Qc)]) /\
  (exists self,
     init parse_numero
          [ (EStr "Precio", [Num (Q2Qc 100); Num (Q2Qc 200)]);
            (EStr "IVA", [Num (Q2Qc 10); Num (Q2Qc 20)]) ] None = Ok self /\
     calcular_totales_financieros self
     = Ok [ ("Total Precio", Q2Qc 300);
            ("IVA de Precio", Q2Qc 48);
            ("Total con IVA de Precio", Q2Qc 348);
            ("Total IVA", Q2Qc 30);
            ("Total Factura", Q2Qc 348) ]) /\
  (forall hoja cfg self,
     init parse_numero hoja cfg = Ok self ->
     exists totales,
       calcular_totales_financieros self = Ok totales /\
       forall antes nombre despues,
         columnas_monetarias self = (antes ++ EStr nombre :: despues)%list ->
         exists serie total previo,
           getitem (df self) (EStr nombre) = Ok serie /\
           Series_sum serie = Ok total /\
           bucle_totales self antes [] = Ok previo /\
           let tasa := get_iva_rate (configuracion self) in
           let con_total := dict_set previo ("Total " ++ nombre) total in
           if get_calcular_iva (configuracion self) && negb (contains "iva" (lower nombre))
           then
             bucle_totales self (antes ++ [EStr nombre]) []
             = Ok (dict_set (dict_set con_total ("IVA de " ++ nombre) (total * tasa)%Qc)
                            ("Total con IVA de " ++ nombre) (total + total * tasa)%Qc) /\
             dict_get totales ("IVA de " ++ nombre) = Some (total * tasa)%Qc /\
             In ("Total con IVA de " ++ nombre) (map fst totales)
           else
             bucle_totales self (antes ++ [EStr nombre]) [] = Ok con_total /\
             dict_get totales ("IVA de " ++ nombre) = None).
Proof.
  split; [reflexivity|]. split; [reflexivity|]. split; [reflexivity|].
  split; [reflexivity|]. split; [|split].
  - intros tasa. eexists. split.
    + apply init_spec. split; [|reflexivity].
      apply NoDup_unicas. simpl. repeat constructor. intros [].
    + vm_compute. apply f_equal, dict_eqb_eq. reflexivity.
  - eexists. split.
    + apply init_spec. split; [|reflexivity].
      apply NoDup_unicas. simpl. repeat constructor; simpl; intuition discriminate.
    + vm_compute. apply f_equal, dict_eqb_eq. reflexivity.
  - intros hoja cfg self H.
    destruct (calcular_totales_spec _ _ _ _ H) as [nombres [M [N [B C]]]].
    eexists. split; [exact C|].
    intros antes nombre despues D. rewrite M in D.
    apply map_EStr_split in D. destruct D as [xs [ys [-> [-> ->]]]].
    assert (Nn : numerica (df self) nombre) by (apply N, in_elt).
    destruct Nn as [serie [G Hnum]].
    exists serie, (total_de (df self) (EStr nombre)), (anotar_todas self xs []).
    split; [exact G|]. split; [unfold total_de; rewrite G; now apply Series_sum_numeros|].
    split.
    { apply bucle_totales_numericas. intros n Hn. apply N, in_or_app. now left. }
    cbv zeta.
    assert (Bx : bucle_totales self (map EStr xs ++ [EStr nombre]) []
                 = Ok (anotar (configuracion self) (anotar_todas self xs []) nombre
                         (total_de (df self) (EStr nombre)))).
    { change [EStr nombre] with (map EStr [nombre]). rewrite <- map_app.
      rewrite bucle_totales_numericas.
      - now rewrite anotar_todas_app.
      - intros n Hn. apply N. apply in_app_or in Hn. apply in_or_app.
        destruct Hn as [Hn | [<- | []]]; [now left | right; now left]. }
    assert (Hex : existsb (String.eqb nombre) (xs ++ nombre :: ys) = true).
    { apply existsb_exists. exists nombre. split; [apply in_elt | apply String.eqb_refl]. }
    rewrite Bx. unfold anotar. fold (grava (configuracion self) nombre).
    rewrite dict_get_set.
    change ("Total Factura" =? "IVA de " ++ nombre) with false. cbv iota.
    rewrite dict_get_anotar_todas_iva, Hex. cbn [andb].
    destruct (grava (configuracion self) nombre) eqn:Gr.
    + split; [reflexivity|]. split; [reflexivity|].
      apply dict_set_In_keys. left.
      change (nombre :: ys) with ([nombre] ++ ys)%list.
      rewrite app_assoc, anotar_todas_app. apply anotar_todas_keys_mono.
      rewrite anotar_todas_app.
      unfold anotar_todas at 1. cbn [fold_left]. unfold anotar. rewrite Gr.
      apply dict_set_In_keys. now right.
    + split; reflexivity.
Qed.

Lemma iva_por_columna_witness :
  exists self totales total,
    init parse_entero hoja_mixta None = Ok self /\
    calcular_totales_financieros self = Ok totales /\
    Series_sum [Num (Q2Qc 100); Num (Q2Qc 200)] = Ok total /\
    dict_get totales "IVA de Precio" = Some (total * Q2Qc (16 # 100))%Qc /\
    In "Total con IVA de Precio" (map fst totales).
Proof.
  destruct (init parse_entero hoja_mixta None) as [self|e] eqn:E; [|discriminate E].
  destruct (proj2 (proj2 (proj2 (proj2 (proj2 (proj2 (iva_por_columna parse_entero))))))
              hoja_mixta None self E) as [totales [C F]].
  destruct (F [] "Precio" []) as [serie [total [previo [G [S [_ R]]]]]].
  { apply init_spec in E. destruct E as [_ ->]. reflexivity. }
  exists self, totales, total.
  apply init_spec in E. destruct E as [_ ->].
  vm_compute in G. injection G as <-.
  split; [reflexivity|]. split; [exact C|]. split; [exact S|].
  change (get_calcular_iva configuracion_vacia && negb (contains "iva" (lower "Precio")))
    with true in R.
  destruct R as [_ [R1 R2]]. split; [exact R1 | exact R2].
Defined.

(** C7. Scenario A: on the sheet with the columns 'Fecha', 'Precio' =
    [100, 200] and 'Cantidad', with [calcular_iva] true and [iva_rate] 0.16,
    whatever the cells of the two other columns, the only monetary column
    is 'Precio' and the aggregation returns, in this order, 'Total Precio'
    = 300, 'IVA de Precio' = 48, 'Total con IVA de Precio' = 348 and
    'Total Factura' = 348. *)
Theorem escenario_A (parse_numero : string -> option Qc) (fecha cantidad : Series) :
  exists self,
    init parse_numero
         [ (EStr "Fecha", fecha);
           (EStr "Precio", [Num (Q2Qc 100); Num (Q2Qc 200)]);
           (EStr "Cantidad", cantidad) ]
         (Some {| calcular_iva := Some true; iva_rate := Some (Q2Qc (16 # 100)) |})
    = Ok self /\
    columnas_monetarias self = [EStr "Precio"] /\
    columnas_no_monetarias self = [EStr "Fecha"; EStr "Cantidad"] /\
    calcular_totales_financieros self
    = Ok [ ("Total Precio", Q2Qc 300);
           ("IVA de Precio", Q2Qc 48);
           ("Total con IVA de Precio", Q2Qc 348);
           ("Total Factura", Q2Qc 348) ].
Proof.
  eexists. split.
  - apply init_spec. split; [|reflexivity].
    apply NoDup_unicas. simpl. repeat constructor; simpl; intuition discriminate.
  - split; [reflexivity|]. split; [reflexivity|].
    vm_compute. apply f_equal, dict_eqb_eq. reflexivity.
Qed.

(** ** The grand total when no label is mistaken for a tax-inclusive total *)














(** C10. When a monetary column is named exactly 'Factura', the loop stores
    the total of that column under 'Total Factura'; the final assignment of
    the grand total goes to that same key, so the returned mapping has the
    keys the loop left, in the same order and without repetition, and under
    'Total Factura' it holds the grand total: there is no separate entry for
    the total of the column. *)
Theorem total_factura_sobrescrito (parse_numero : string -> option Qc)
        (hoja : DataFrame) (cfg : option Configuracion) (self : ExcelAnalyzer) :
  init parse_numero hoja cfg = Ok self ->
  In (EStr "Factura") (columnas_monetarias self) ->
  exists serie total acumulado totales,
    getitem (df self) (EStr "Factura") = Ok serie /\
    Series_sum serie = Ok total /\
    bucle_totales self (columnas_monetarias self) [] = Ok acumulado /\
    dict_get acumulado "Total Factura" = Some total /\
    calcular_totales_financieros self = Ok totales /\
    totales = dict_set acumulado "Total Factura" (py_sum (valores_con_iva acumulado)) /\
    dict_get totales "Total Factura" = Some (py_sum (valores_con_iva acumulado)) /\
    map fst totales = map fst acumulado /\
    NoDup (map fst totales).
Proof.
  intros H Hin.
  destruct (calcular_totales_spec _ _ _ _ H) as [nombres [M [N [B C]]]].
  rewrite M in Hin. apply in_map_iff in Hin. destruct Hin as [n [Hn Hin]].
  injection Hn as ->.
  destruct (N _ Hin) as [serie [G Hnum]].
  assert (Hex : existsb (String.eqb "Factura") nombres = true).
  { apply existsb_exists. exists "Factura". split; [assumption | reflexivity]. }
  assert (A : dict_get (anotar_todas self nombres []) "Total Factura"
              = Some (total_de (df self) (EStr "Factura")))
    by now rewrite dict_get_anotar_todas_factura, Hex.
  assert (K : In "Total Factura" (map fst (anotar_todas self nombres []))).
  { apply dict_get_In. rewrite A. discriminate. }
  exists serie, (total_de (df self) (EStr "Factura")), (anotar_todas self nombres []).
  eexists. split; [exact G|].
  split; [unfold total_de; rewrite G; now apply Series_sum_numeros|].
  split; [exact B|]. split; [exact A|]. split; [exact C|]. split; [reflexivity|].
  split; [now rewrite dict_get_set, String.eqb_refl|].
  split; [now apply dict_set_keys_present|].
  apply dict_set_NoDup, anotar_todas_NoDup. constructor.
Qed.

Lemma total_factura_sobrescrito_witness :
  exists self,
    init parse_entero hoja_factura None = Ok self /\
    bucle_totales self (columnas_monetarias self) []
    = Ok [ ("Total Factura", Q2Qc 150);
           ("IVA de Factura", Q2Qc 24);
           ("Total con IVA de Factura", Q2Qc 174) ] /\
    exists totales,
      calcular_totales_financieros self = Ok totales /\
      map fst totales = ["Total Factura"; "IVA de Factura"; "Total con IVA de Factura"] /\
      dict_get totales "Total Factura" = Some (Q2Qc 174).
Proof.
  destruct (init parse_entero hoja_factura None) as [self|e] eqn:E; [|discriminate E].
  exists self. split; [reflexivity|].
  destruct (total_factura_sobrescrito parse_entero hoja_factura None self E)
    as [serie [total [acumulado [totales [_ [_ [B [_ [C [_ [T [K _]]]]]]]]]]]].
  { apply init_spec in E. destruct E as [_ ->]. simpl. now left. }
  assert (A : acumulado = [ ("Total Factura", Q2Qc 150);
                            ("IVA de Factura", Q2Qc 24);
                            ("Total con IVA de Factura", Q2Qc 174) ]).
  { apply init_spec in E. destruct E as [_ ->]. vm_compute in B.
    injection B as <-. apply dict_eqb_eq. reflexivity. }
  subst acumulado. split; [exact B|].
  exists totales. split; [exact C|]. split; [exact K|].
  rewrite T. apply f_equal, Qc_is_canon. reflexivity.
Defined.

(** C1. The grand total sums every entry whose key contains 'Total con IVA',
    and the key 'Total <column>' of a column named 'Total con IVA' is such a
    key.  On the sheet with that one column, of total 10, no column
    qualifies for tax and no 'Total con IVA de <column>' entry is written,
    yet 'Total Factura' is 10.  On an invoice with the columns 'Subtotal' =
    [100], 'IVA' = [16] and 'Total con IVA' = [116] the one entry 'Total con
    IVA de Subtotal' is 116 and 'Total Factura' is 232. *)
Theorem total_factura_cuenta_total_de_columna (parse_numero : string -> option Qc) :
  (exists self,
     init parse_numero [(EStr "Total con IVA", [Num (Q2Qc 10)])] None = Ok self /\
     columnas_monetarias self = [EStr "Total con IVA"] /\
     grava (configuracion self) "Total con IVA" = false /\
     calcular_totales_financieros self
     = Ok [ ("Total Total con IVA", Q2Qc 10); ("Total Factura", Q2Qc 10) ]) /\
  (exists self,
     init parse_numero
          [ (EStr "Subtotal", [Num (Q2Qc 100)]);
            (EStr "IVA", [Num (Q2Qc 16)]);
            (EStr "Total con IVA", [Num (Q2Qc 116)]) ] None = Ok self /\
     calcular_totales_financieros self
     = Ok [ ("Total Subtotal", Q2Qc 100);
            ("IVA de Subtotal", Q2Qc 16);
            ("Total con IVA de Subtotal", Q2Qc 116);
            ("Total IVA", Q2Qc 16);
            ("Total Total con IVA", Q2Qc 116);
            ("Total Factura", Q2Qc 232) ]).
Proof.
  split; eexists; (split; [apply init_spec; split; [|reflexivity]|]).
  - apply NoDup_unicas. simpl. repeat constructor. intros [].
  - split; [reflexivity|]. split; [reflexivity|].
    vm_compute. apply f_equal, dict_eqb_eq. reflexivity.
  - apply NoDup_unicas. simpl. repeat constructor; simpl; intuition discriminate.
  - vm_compute. apply f_equal, dict_eqb_eq. reflexivity.
Qed.

(** ** Further scenarios of the specification *)

(** Scenario B: as scenario A with [calcular_iva] false. *)
Example escenario_B (parse_numero : string -> option Qc) (fecha cantidad : Series) :
  exists self,
    init parse_numero
         [ (EStr "Fecha", fecha);
           (EStr "Precio", [Num (Q2Qc 100); Num (Q2Qc 200)]);
           (EStr "Cantidad", cantidad) ]
         (Some {| calcular_iva := Some false; iva_rate := Some (Q2Qc (16 # 100)) |})
    = Ok self /\
    calcular_totales_financieros self
    = Ok [ ("Total Precio", Q2Qc 300); ("Total Factura", 0%Qc) ].
Proof.
  eexists. split.
  - apply init_spec. split; [|reflexivity].
    apply NoDup_unicas. simpl. repeat constructor; simpl; intuition discriminate.
  - vm_compute. apply f_equal, dict_eqb_eq. reflexivity.
Qed.

(** Scenario D: texts and blanks under a monetary label become zero. *)
Example escenario_D (parse_numero : string -> option Qc) :
  parse_numero "abc" = None -> parse_numero "" = None ->
  exists self,
    init parse_numero [(EStr "Monto", [Texto "abc"; Texto ""; Num (Q2Qc 50)])] None = Ok self /\
    df self = [(EStr "Monto", [Num 0%Qc; Num 0%Qc; Num (Q2Qc 50)])] /\
    dict_get
      (match calcular_totales_financieros self with
       | Ok totales => totales
       | Raise _ => []
       end) "Total Monto" = Some (Q2Qc 50).
Proof.
  intros Habc Hvacio. eexists. split.
  - apply init_spec. split; [|reflexivity].
    apply NoDup_unicas. simpl. repeat constructor. intros [].
  - split.
    + cbn [df map]. unfold preparada. cbn [fst snd map interpretar].
      change (es_monetaria (EStr "Monto")) with true. cbv iota.
      now rewrite Habc, Hvacio.
    + unfold calcular_totales_financieros, bucle_totales.
      cbn [columnas_monetarias columns map filter for_each df].
      change (es_monetaria (EStr "Monto")) with true. cbv iota.
      cbn [for_each]. unfold total_de_columna, preparada.
      cbn [df map fst snd interpretar].
      change (es_monetaria (EStr "Monto")) with true. cbv iota.
      rewrite Habc, Hvacio.
      vm_compute. apply f_equal, Qc_is_canon. reflexivity.
Qed.

(** * Further properties of the aggregation *)

Lemma dict_set_length (d : Dict) (k : string) (v : Qc) :
  (List.length (dict_set d k v) <= S (List.length d))%nat.
Proof.
  induction d as [|[k0 v0] d IH]; simpl; [lia|].
  destruct (String.eqb k0 k); simpl; lia.
Qed.

Lemma dict_set_keys_inv (d : Dict) (k k' : string) (v : Qc) :
  In k (map fst (dict_set d k' v)) -> In k (map fst d) \/ k = k'.
Proof.
  intros H. destruct (in_dec string_dec k' (map fst d)) as [Hin | Hout].
  - rewrite dict_set_keys_present in H by assumption. now left.
  - rewrite dict_set_keys_absent in H by assumption.
    apply in_app_or in H. destruct H as [H | [H | []]]; [now left | now right].
Qed.

Lemma anotar_length (c : Configuracion) (t : Dict) (n : string) (total : Qc) :
  (List.length (anotar c t n total) <= List.length t + 3)%nat.
Proof.
  unfold anotar. destruct (grava c n).
  - pose proof (dict_set_length t ("Total " ++ n) total) as H1.
    pose proof (dict_set_length (dict_set t ("Total " ++ n) total) ("IVA de " ++ n)
                  (total * get_iva_rate c)%Qc) as H2.
    pose proof (dict_set_length
                  (dict_set (dict_set t ("Total " ++ n) total) ("IVA de " ++ n)
                            (total * get_iva_rate c)%Qc)
                  ("Total con IVA de " ++ n) (total + total * get_iva_rate c)%Qc) as H3.
    lia.
  - pose proof (dict_set_length t ("Total " ++ n) total). lia.
Qed.

Lemma anotar_keys_inv (c : Configuracion) (t : Dict) (n : string) (total : Qc) (k : string) :
  In k (map fst (anotar c t n total)) ->
  In k (map fst t) \/
  k = "Total " ++ n \/
  (grava c n = true /\ (k = "IVA de " ++ n \/ k = "Total con IVA de " ++ n)).
Proof.
  unfold anotar. destruct (grava c n); intros H.
  - apply dict_set_keys_inv in H. destruct H as [H | ->]; [|right; right; auto].
    apply dict_set_keys_inv in H. destruct H as [H | ->]; [|right; right; auto].
    apply dict_set_keys_inv in H. destruct H as [H | ->]; auto.
  - apply dict_set_keys_inv in H. destruct H as [H | ->]; auto.
Qed.

Lemma anotar_todas_length (self : ExcelAnalyzer) (nombres : list string) :
  forall t,
    (List.length (anotar_todas self nombres t)
     <= List.length t + 3 * List.length nombres)%nat.
Proof.
  unfold anotar_todas.
  induction nombres as [|n nombres IH]; intros t; simpl; [lia|].
  specialize (IH (anotar (configuracion self) t n (total_de (df self) (EStr n)))).
  pose proof (anotar_length (configuracion self) t n (total_de (df self) (EStr n))).
  lia.
Qed.

Lemma anotar_todas_keys_inv (self : ExcelAnalyzer) (nombres : list string) (k : string) :
  forall t,
    In k (map fst (anotar_todas self nombres t)) ->
    In k (map fst t) \/
    exists n, In n nombres /\
      (k = "Total " ++ n \/
       (grava (configuracion self) n = true /\
        (k = "IVA de " ++ n \/ k = "Total con IVA de " ++ n))).
Proof.
  unfold anotar_todas.
  induction nombres as [|n nombres IH]; intros t H; simpl in H; [now left|].
  apply IH in H. destruct H as [H | [m [Hm Hk]]].
  - apply anotar_keys_inv in H. destruct H as [H | H]; [now left|].
    right. exists n. split; [now left | exact H].
  - right. exists m. split; [now right | exact Hk].
Qed.

Lemma anotar_todas_total_key (self : ExcelAnalyzer) (nombres : list string) (n : string) :
  forall t, In n nombres -> In ("Total " ++ n) (map fst (anotar_todas self nombres t)).
Proof.
  unfold anotar_todas.
  induction nombres as [|m nombres IH]; intros t H; [destruct H|].
  simpl. destruct H as [-> | H]; [|now apply IH].
  apply (anotar_todas_keys_mono self nombres). unfold anotar.
  destruct (grava (configuracion self) n);
    repeat (apply dict_set_In_keys; try (now right); left).
Qed.

(** X1. On an analyzer built by [__init__] the aggregation does not raise.
    The mapping it returns has no repeated key, has the key 'Total Factura'
    and a key 'Total <column>' for every monetary column, has no key other
    than 'Total Factura' and the 'Total', 'IVA de' and 'Total con IVA de'
    keys of the monetary columns, the last two only for columns that
    qualify for tax, and has at most three entries per monetary column and
    one more. *)
Theorem calcular_no_falla (parse_numero : string -> option Qc)
        (hoja : DataFrame) (cfg : option Configuracion) (self : ExcelAnalyzer) :
  init parse_numero hoja cfg = Ok self ->
  exists totales,
    calcular_totales_financieros self = Ok totales /\
    NoDup (map fst totales) /\
    In "Total Factura" (map fst totales) /\
    (forall n, In (EStr n) (columnas_monetarias self) ->
               In ("Total " ++ n) (map fst totales)) /\
    (forall k, In k (map fst totales) ->
       k = "Total Factura" \/
       exists n, In (EStr n) (columnas_monetarias self) /\
         (k = "Total " ++ n \/
          (get_calcular_iva (configuracion self) = true /\
           contains "iva" (lower n) = false /\
           (k = "IVA de " ++ n \/ k = "Total con IVA de " ++ n)))) /\
    (List.length totales <= 3 * List.length (columnas_monetarias self) + 1)%nat.
Proof.
  intros H. destruct (calcular_totales_spec _ _ _ _ H) as [nombres [M [_ [_ C]]]].
  eexists. split; [exact C|]. rewrite M.
  split; [apply dict_set_NoDup, anotar_todas_NoDup; constructor|].
  split; [apply dict_set_In_keys; now right|].
  split; [|split].
  - intros n Hn. apply in_map_iff in Hn. destruct Hn as [m [Hm Hn]].
    injection Hm as ->. apply dict_set_In_keys. left.
    now apply anotar_todas_total_key.
  - intros k Hk. apply dict_set_keys_inv in Hk. destruct Hk as [Hk | ->]; [|now left].
    apply anotar_todas_keys_inv in Hk. destruct Hk as [[] | [n [Hn Hk]]].
    right. exists n. split; [now apply in_map|].
    destruct Hk as [-> | [G Hk]]; [now left|]. right.
    unfold grava in G. apply andb_true_iff in G. destruct G as [G1 G2].
    apply negb_true_iff in G2. auto.
  - rewrite length_map.
    pose proof (dict_set_length (anotar_todas self nombres []) "Total Factura"
                  (py_sum (valores_con_iva (anotar_todas self nombres [])))) as L1.
    pose proof (anotar_todas_length self nombres []) as L2. simpl in L2. lia.
Qed.

Lemma calcular_no_falla_witness :
  exists self totales,
    init parse_entero hoja_mixta None = Ok self /\
    calcular_totales_financieros self = Ok totales /\
    NoDup (map fst totales) /\
    In "Total Factura" (map fst totales) /\
    In "Total Precio" (map fst totales) /\
    (List.length totales <= 4)%nat.
Proof.
  destruct (init parse_entero hoja_mixta None) as [self|e] eqn:E; [|discriminate E].
  destruct (calcular_no_falla parse_entero hoja_mixta None self E)
    as [totales [C [N [F [T [_ L]]]]]].
  exists self, totales.
  apply init_spec in E. destruct E as [_ ->].
  split; [reflexivity|]. split; [exact C|]. split; [exact N|]. split; [exact F|].
  split; [apply (T "Precio"); simpl; now left | exact L].
Defined.






Lemma dict_get_anotar_con_iva (c : Configuracion) (t : Dict) (m n : string) (total : Qc) :
  dict_get (anotar c t m total) ("Total con IVA de " ++ n)
  = if grava c m && String.eqb m n
    then Some (total + total * get_iva_rate c)%Qc
    else if String.eqb m ("con IVA de " ++ n) then Some total
         else dict_get t ("Total con IVA de " ++ n).
Proof.
  unfold anotar. destruct (grava c m); rewrite ?dict_get_set.
  - change ("Total con IVA de " ++ m =? "Total con IVA de " ++ n) with (m =? n).
    change ("IVA de " ++ m =? "Total con IVA de " ++ n) with false.
    change ("Total " ++ m =? "Total con IVA de " ++ n) with (m =? "con IVA de " ++ n).
    reflexivity.
  - change ("Total " ++ m =? "Total con IVA de " ++ n) with (m =? "con IVA de " ++ n).
    reflexivity.
Qed.

Lemma dict_get_anotar_todas_con_iva (self : ExcelAnalyzer) (nombres : list string) (n : string) :
  ~ In ("con IVA de " ++ n) nombres ->
  forall t,
    dict_get (anotar_todas self nombres t) ("Total con IVA de " ++ n)
    = if existsb (String.eqb n) nombres && grava (configuracion self) n
      then Some (total_con_iva self n)
      else dict_get t ("Total con IVA de " ++ n).
Proof.
  unfold anotar_todas, total_con_iva.
  induction nombres as [|m nombres IH]; intros H t; cbn [fold_left existsb]; [reflexivity|].
  rewrite IH by (intros Hin; apply H; now right).
  rewrite dict_get_anotar_con_iva.
  assert (E : String.eqb m ("con IVA de " ++ n) = false).
  { apply String.eqb_neq. intros ->. apply H. now left. }
  rewrite E, (String.eqb_sym n m).
  destruct (String.eqb m n) eqn:Emn; cbn [orb]; [|now rewrite andb_false_r].
  apply String.eqb_eq in Emn. subst m.
  destruct (grava (configuracion self) n); [|now rewrite !andb_false_r].
  now destruct (existsb (String.eqb n) nombres).
Qed.

(** X3. When no monetary column is named 'con IVA de <column>', the returned
    mapping has the key 'Total con IVA de <column>' exactly when
    [calcular_iva] holds and 'iva' is not in the lowercase name of the
    column, and its value is then the column total plus the tax on it. *)
Theorem total_con_iva_en_resultado (parse_numero : string -> option Qc)
        (hoja : DataFrame) (cfg : option Configuracion) (self : ExcelAnalyzer) (n : string) :
  init parse_numero hoja cfg = Ok self ->
  In (EStr n) (columnas_monetarias self) ->
  ~ In (EStr ("con IVA de " ++ n)) (columnas_monetarias self) ->
  exists serie total totales,
    getitem (df self) (EStr n) = Ok serie /\
    Series_sum serie = Ok total /\
    calcular_totales_financieros self = Ok totales /\
    dict_get totales ("Total con IVA de " ++ n)
    = if get_calcular_iva (configuracion self) && negb (contains "iva" (lower n))
      then Some (total + total * get_iva_rate (configuracion self))%Qc
      else None.
Proof.
  intros H Hn Hcol.
  destruct (calcular_totales_spec _ _ _ _ H) as [nombres [M [N [_ C]]]].
  rewrite M in Hn, Hcol.
  apply in_map_iff in Hn. destruct Hn as [n' [En Hn]]. injection En as ->.
  destruct (N n Hn) as [serie [G Hnum]].
  exists serie, (total_de (df self) (EStr n)). eexists.
  split; [exact G|].
  split; [unfold total_de; rewrite G; now apply Series_sum_numeros|].
  split; [exact C|].
  rewrite dict_get_set.
  change ("Total Factura" =? "Total con IVA de " ++ n) with false. cbv iota.
  rewrite dict_get_anotar_todas_con_iva.
  - assert (Hex : existsb (String.eqb n) nombres = true).
    { apply existsb_exists. exists n. split; [assumption | apply String.eqb_refl]. }
    rewrite Hex. reflexivity.
  - intros Hin. apply Hcol. now apply in_map.
Qed.

Lemma total_con_iva_en_resultado_witness :
  exists self totales total,
    init parse_entero hoja_mixta None = Ok self /\
    calcular_totales_financieros self = Ok totales /\
    Series_sum [Num (Q2Qc 100); Num (Q2Qc 200)] = Ok total /\
    dict_get totales "Total con IVA de Precio"
    = Some (total + total * Q2Qc (16 # 100))%Qc.
Proof.
  destruct (init parse_entero hoja_mixta None) as [self|e] eqn:E; [|discriminate E].
  destruct (total_con_iva_en_resultado parse_entero hoja_mixta None self "Precio" E)
    as [serie [total [totales [G [S [C D]]]]]].
  - apply init_spec in E. destruct E as [_ ->]. simpl. now left.
  - apply init_spec in E. destruct E as [_ ->]. simpl. intros [Hm | []]. discriminate Hm.
  - exists self, totales, total.
    apply init_spec in E. destruct E as [_ ->].
    vm_compute in G. injection G as <-.
    split; [reflexivity|]. split; [exact C|]. split; [exact S|].
    change (get_calcular_iva configuracion_vacia && negb (contains "iva" (lower "Precio")))
      with true in D.
    exact D.
Defined.






(** * Further properties of the classification *)

Lemma lower_ascii_idem (c : ascii) : lower_ascii (lower_ascii c) = lower_ascii c.
Proof. destruct c as [[] [] [] [] [] [] [] []]; reflexivity. Qed.

Lemma lower_idem (s : string) : lower (lower s) = lower s.
Proof.
  induction s as [|c s IH]; simpl; [reflexivity|]. now rewrite lower_ascii_idem, IH.
Qed.

Lemma lower_app (a b : string) : lower (a ++ b) = lower a ++ lower b.
Proof. induction a as [|c a IH]; simpl; [reflexivity|]. now rewrite IH. Qed.

Lemma string_app_assoc (a b c : string) : (a ++ b) ++ c = a ++ b ++ c.
Proof. induction a as [|x a IH]; simpl; [reflexivity|]. now rewrite IH. Qed.

Lemma subcadena_trans (t s u : string) :
  subcadena t s -> subcadena s u -> subcadena t u.
Proof.
  intros [a [b ->]] [a' [b' ->]]. exists (a' ++ a), (b ++ b').
  now rewrite !string_app_assoc.
Qed.

Lemma es_monetaria_subcadena (s t : string) :
  subcadena (lower s) (lower t) ->
  es_monetaria (EStr s) = true -> es_monetaria (EStr t) = true.
Proof.
  intros Hsub H. apply es_monetaria_spec in H. destruct H as [termino [Hin H]].
  apply es_monetaria_spec. exists termino. split; [assumption|].
  now apply (subcadena_trans _ _ _ H).
Qed.

(** X6. Classification looks only at the lowercase form of a name and is
    closed under extension: two names of the table with the same lowercase
    form are classified alike, the lowercase form of a name passes the
    keyword test exactly when the name does, and a name that contains a
    monetary name of the table, with any text before and after it, is
    monetary. *)
Theorem clasificacion_sin_mayusculas (self : ExcelAnalyzer) (s t : string) :
  In (EStr s) (columns (df self)) ->
  In (EStr t) (columns (df self)) ->
  let monetarias := columnas_monetarias (_identificar_columnas self) in
  (lower s = lower t -> (In (EStr s) monetarias <-> In (EStr t) monetarias)) /\
  (t = lower s -> (In (EStr s) monetarias <-> In (EStr t) monetarias)) /\
  (forall a b, t = a ++ s ++ b -> In (EStr s) monetarias -> In (EStr t) monetarias).
Proof.
  intros Hs Ht monetarias. subst monetarias. rewrite monetarias_filter, !filter_In.
  assert (Hlow : lower s = lower t -> es_monetaria (EStr s) = es_monetaria (EStr t))
    by (intros E; unfold es_monetaria; now rewrite E).
  split; [|split].
  - intros E. rewrite (Hlow E). tauto.
  - intros ->. rewrite Hlow by (now rewrite lower_idem). tauto.
  - intros a b -> H. apply filter_In in H. destruct H as [_ H].
    apply filter_In. split; [assumption|].
    apply (es_monetaria_subcadena s); [|assumption].
    rewrite !lower_app. now exists (lower a), (lower b).
Qed.

Lemma clasificacion_sin_mayusculas_witness :
  let self := {| df := [ (EStr "Precio", []); (EStr "PRECIO", []);
                         (EStr "Lista de Precios 2024", []) ];
                 columnas_monetarias := []; columnas_no_monetarias := [];
                 configuracion := configuracion_vacia |} in
  (In (EStr "Precio") (columnas_monetarias (_identificar_columnas self)) <->
   In (EStr "PRECIO") (columnas_monetarias (_identificar_columnas self))) /\
  (In (EStr "Precio") (columnas_monetarias (_identificar_columnas self)) ->
   In (EStr "Lista de Precios 2024") (columnas_monetarias (_identificar_columnas self))).
Proof.
  intros self. split.
  - apply (proj1 (clasificacion_sin_mayusculas self "Precio" "PRECIO"
                    (or_introl eq_refl) (or_intror (or_introl eq_refl)))).
    reflexivity.
  - apply (proj2 (proj2 (clasificacion_sin_mayusculas self "Precio" "Lista de Precios 2024"
                    (or_introl eq_refl) (or_intror (or_intror (or_introl eq_refl)))))
             "Lista de " "s 2024").
    reflexivity.
Defined.

Lemma subtotal_total (x : string) :
  contains "subtotal" x = true -> contains "total" x = true.
Proof.
  rewrite !contains_spec. apply subcadena_trans. now exists "sub", "".
Qed.

(** X7. The keyword 'subtotal' is redundant: every name that contains it
    contains 'total', so classification with the seven other keywords gives
    the same monetary columns and the same other columns. *)
Theorem subtotal_redundante (self : ExcelAnalyzer) :
  let siete := [ "monto"; "iva"; "total"; "descuento"; "impuesto"; "factura"; "precio" ] in
  let prueba := fun col =>
                  match col with
                  | EStr s => existsb (fun termino => contains termino (lower s)) siete
                  | EInt _ => false
                  end in
  columnas_monetarias (_identificar_columnas self)
  = filter prueba (columns (df self)) /\
  columnas_no_monetarias (_identificar_columnas self)
  = filter (fun col => negb (prueba col)) (columns (df self)).
Proof.
  intros siete prueba.
  assert (E : forall col, es_monetaria col = prueba col).
  { intros [s|z]; [|reflexivity]. unfold es_monetaria, prueba, siete, COLUMNAS_FINANCIERAS.
    cbn [existsb].
    destruct (contains "subtotal" (lower s)) eqn:Hsub; [|reflexivity].
    rewrite (subtotal_total _ Hsub).
    now destruct (contains "monto" (lower s)), (contains "iva" (lower s)). }
  rewrite monetarias_filter, no_monetarias_filter.
  split; apply filter_ext; intros col; now rewrite E.
Qed.

(** * The two definitions of the preparation *)

Lemma primera_cadenas (parse_numero : string -> option Qc) (L : list Etiqueta) :
  (forall col, In col L -> exists s, col = EStr s) ->
  forall d, for_each (preparar_columna_primera parse_numero) L d
            = for_each (preparar_columna parse_numero) L d.
Proof.
  induction L as [|col L IH]; intros H d; [reflexivity|].
  cbn [for_each]. destruct (H col (or_introl eq_refl)) as [s ->].
  change (preparar_columna_primera parse_numero d (EStr s))
    with (preparar_columna parse_numero d (EStr s)).
  destruct (preparar_columna parse_numero d (EStr s)) as [d1|e]; [|reflexivity].
  simpl bind. apply IH. intros c Hc. apply H. now right.
Qed.

Lemma primera_entero (parse_numero : string -> option Qc) (L : list Etiqueta) (z : Z) :
  In (EInt z) L ->
  forall d d', for_each (preparar_columna parse_numero) L d = Ok d' ->
               for_each (preparar_columna_primera parse_numero) L d = Raise AttributeError.
Proof.
  induction L as [|col L IH]; intros Hin d d' Hrun; [destruct Hin|].
  cbn [for_each] in *. destruct col as [s|z'].
  - change (preparar_columna_primera parse_numero d (EStr s))
      with (preparar_columna parse_numero d (EStr s)).
    destruct (preparar_columna parse_numero d (EStr s)) as [d1|e]; [|discriminate Hrun].
    simpl bind in *. destruct Hin as [Hin | Hin]; [discriminate Hin|].
    now apply (IH Hin d1 d').
  - reflexivity.
Qed.

(** X8. The class body defines [_preparar_columnas_financieras] twice.  On a
    table whose labels are all strings the first definition does what the
    second, which is the one in force, does; on a table with a label that is
    not a string, where the second succeeds, the first raises
    [AttributeError]. *)
Theorem preparar_primera_y_segunda (parse_numero : string -> option Qc) (hoja : DataFrame) :
  ((forall col, In col (columns hoja) -> exists s, col = EStr s) ->
   _preparar_columnas_financieras_primera parse_numero hoja
   = _preparar_columnas_financieras parse_numero hoja) /\
  (forall z preparado,
     In (EInt z) (columns hoja) ->
     _preparar_columnas_financieras parse_numero hoja = Ok preparado ->
     _preparar_columnas_financieras_primera parse_numero hoja = Raise AttributeError).
Proof.
  split.
  - intros H. now apply primera_cadenas.
  - intros z preparado Hin Hrun. now apply (primera_entero _ _ z Hin hoja preparado).
Qed.

Lemma preparar_primera_y_segunda_witness :
  _preparar_columnas_financieras_primera parse_entero hoja_monto
  = _preparar_columnas_financieras parse_entero hoja_monto /\
  _preparar_columnas_financieras_primera parse_entero hoja_mixta = Raise AttributeError.
Proof.
  split.
  - apply (proj1 (preparar_primera_y_segunda parse_entero hoja_monto)).
    intros col [<- | []]. now exists "Monto".
  - apply (proj2 (preparar_primera_y_segunda parse_entero hoja_mixta) 2024%Z
             (map (preparada parse_entero) hoja_mixta)).
    + simpl. auto.
    + apply preparar_spec. split; [|reflexivity]. apply NoDup_unicas.
      simpl. repeat constructor; simpl; intuition discriminate.
Defined.

(** * The console layer *)

Lemma enumerar_nth (textos : list string) :
  forall desde i x,
    nth_error textos i = Some x ->
    nth_error (enumerar desde textos) i = Some (Print (str_nat (desde + i) ++ ". " ++ x)).
Proof.
  induction textos as [|t textos IH]; intros desde [|i] x H; try discriminate.
  - simpl in *. injection H as ->. now rewrite Nat.add_0_r.
  - simpl in *. rewrite (IH (S desde) i x H). now rewrite Nat.add_succ_r.
Qed.

Lemma enumerar_length (textos : list string) :
  forall desde, List.length (enumerar desde textos) = List.length textos.
Proof. induction textos as [|t textos IH]; intros desde; simpl; [reflexivity | now rewrite IH]. Qed.

Lemma indexar_nth {A : Type} (l : list A) (i : nat) (a : A) :
  nth_error l i = Some a -> indexar l (Z.of_nat i) = Devuelve a.
Proof.
  intros H. unfold indexar.
  assert (Hlt : (i < List.length l)%nat) by (apply nth_error_Some; congruence).
  assert (E1 : (Z.of_nat i <? 0)%Z = false) by (apply Z.ltb_ge; lia).
  rewrite E1.
  assert (E2 : ((0 <=? Z.of_nat i) && (Z.of_nat i <? Z.of_nat (List.length l)))%Z = true).
  { apply andb_true_iff. split; [apply Z.leb_le | apply Z.ltb_lt]; lia. }
  now rewrite E2, Nat2Z.id, H.
Qed.

Section PropiedadesConsola.

Variable Ruta : Type.
Variable Path_de : string -> Ruta.
Variable str_ruta : Ruta -> string.
Variable is_file : Ruta -> bool.
Variable glob : string -> Salida (list Ruta).
Variable pd_ExcelFile : Ruta -> Salida ExcelFile.
Variable isdigit : string -> bool.
Variable int_de : string -> option Z.
Variable parse_numero : string -> option Qc.

Local Abbreviation elegir_h := (elegir_hoja int_de).
Local Abbreviation elegir_r := (elegir_ruta int_de).
Local Abbreviation buscar := (buscar_por_nombre str_ruta glob int_de).
Local Abbreviation pregunta_hoja := (Input "Seleccione el número de la hoja a analizar: ").
Local Abbreviation pregunta_ruta :=
  (Input (nl ++ "Seleccione el número del archivo correcto: ")).

Lemma elegir_hoja_primera_valida (n : nat) (invalidas : list string) (linea : string)
      (restantes : list string) (k : Z) :
  Forall (fun l => hoja_valida int_de n l = false) invalidas ->
  int_de linea = Some k -> (1 <= k <= Z.of_nat n)%Z ->
  elegir_h n (invalidas ++ linea :: restantes)
  = {| salida := Devuelve (k - 1)%Z;
       resto := restantes;
       consola :=
         flat_map (fun l => [ pregunta_hoja;
                              Print (match int_de l with
                                     | Some _ => "Selección no válida. Intente de nuevo."
                                     | None => "Por favor, ingrese un número válido."
                                     end) ]) invalidas
         ++ [pregunta_hoja] |}.
Proof.
  intros Hinv Hk Hr. induction Hinv as [|l invalidas Hl Hinv IH].
  - simpl. rewrite Hk.
    assert (E : ((0 <=? k - 1) && (k - 1 <? Z.of_nat n))%Z = true).
    { apply andb_true_iff. split; [apply Z.leb_le | apply Z.ltb_lt]; lia. }
    now rewrite E.
  - cbn [app elegir_hoja flat_map]. unfold hoja_valida in Hl.
    destruct (int_de l) as [m|]; rewrite IH.
    + assert (E : ((0 <=? m - 1) && (m - 1 <? Z.of_nat n))%Z = false).
      { apply andb_false_iff. apply andb_false_iff in Hl.
        destruct Hl as [Hl | Hl]; [left; apply Z.leb_gt; apply Z.leb_gt in Hl
                                  | right; apply Z.ltb_ge; apply Z.leb_gt in Hl]; lia. }
      now rewrite E.
    + reflexivity.
Qed.

Lemma elegir_hoja_sin_valida (n : nat) (entrada : list string) :
  Forall (fun l => hoja_valida int_de n l = false) entrada ->
  salida (elegir_h n entrada) = Lanza EOFError /\ resto (elegir_h n entrada) = [].
Proof.
  intros H. induction H as [|l entrada Hl H IH]; [now split|].
  cbn [elegir_hoja]. unfold hoja_valida in Hl.
  destruct (int_de l) as [m|]; [|exact IH].
  assert (E : ((0 <=? m - 1) && (m - 1 <? Z.of_nat n))%Z = false).
  { apply andb_false_iff. apply andb_false_iff in Hl.
    destruct Hl as [Hl | Hl]; [left; apply Z.leb_gt; apply Z.leb_gt in Hl
                              | right; apply Z.ltb_ge; apply Z.leb_gt in Hl]; lia. }
  rewrite E. exact IH.
Qed.

(** Every input splits into lines that the loop rejects, followed either by
    nothing or by a line that it accepts. *)
Lemma partir_entrada (valida : string -> bool) (entrada : list string) :
  Forall (fun l => valida l = false) entrada \/
  exists invalidas linea restantes,
    entrada = (invalidas ++ linea :: restantes)%list /\
    Forall (fun l => valida l = false) invalidas /\ valida linea = true.
Proof.
  induction entrada as [|l entrada IH]; [left; constructor|].
  destruct (valida l) eqn:E.
  - right. exists [], l, entrada. repeat split; [constructor | assumption].
  - destruct IH as [IH | [invalidas [linea [restantes [-> [Hinv Hl]]]]]].
    + left. now constructor.
    + right. exists (l :: invalidas), linea, restantes.
      repeat split; [now constructor | assumption].
Qed.

Lemma invalida_fuera (n : nat) (l : string) (m : Z) :
  int_de l = Some m -> ruta_valida int_de n l = false ->
  ((1 <=? m) && (m <=? Z.of_nat n))%Z = false.
Proof. unfold ruta_valida. now intros ->. Qed.

Lemma elegir_ruta_primera_valida (posibles : list Ruta) (invalidas : list string)
      (linea : string) (restantes : list string) (i : nat) (p : Ruta) :
  Forall (fun l => ruta_valida int_de (List.length posibles) l = false) invalidas ->
  int_de linea = Some (Z.of_nat (S i)) ->
  nth_error posibles i = Some p ->
  elegir_r posibles (invalidas ++ linea :: restantes)
  = {| salida := Devuelve p;
       resto := restantes;
       consola :=
         flat_map (fun l => pregunta_ruta ::
                            match int_de l with
                            | Some _ => []
                            | None => [Print "Por favor, ingrese un número válido."]
                            end) invalidas
         ++ [pregunta_ruta] |}.
Proof.
  intros Hinv Hk Hp.
  assert (Hlt : (i < List.length posibles)%nat) by (apply nth_error_Some; congruence).
  induction Hinv as [|l invalidas Hl Hinv IH].
  - cbn [app elegir_ruta flat_map]. rewrite Hk.
    assert (E : ((1 <=? Z.of_nat (S i)) && (Z.of_nat (S i) <=? Z.of_nat (List.length posibles)))%Z
                = true).
    { apply andb_true_iff. split; apply Z.leb_le; lia. }
    rewrite E. replace (Z.of_nat (S i) - 1)%Z with (Z.of_nat i) by lia.
    now rewrite (indexar_nth _ _ _ Hp).
  - cbn [app elegir_ruta flat_map]. destruct (int_de l) as [m|] eqn:El; rewrite IH.
    + now rewrite (invalida_fuera _ _ _ El Hl).
    + reflexivity.
Qed.

Lemma indexar_In {A : Type} (l : list A) (i : Z) (a : A) :
  indexar l i = Devuelve a -> In a l.
Proof.
  unfold indexar. destruct (_ && _); [|discriminate].
  destruct (nth_error l _) eqn:E; [|discriminate].
  intros H. injection H as <-. now apply nth_error_In in E.
Qed.

Lemma elegir_ruta_In (posibles : list Ruta) (entrada : list string) (p : Ruta) :
  salida (elegir_r posibles entrada) = Devuelve p -> In p posibles.
Proof.
  induction entrada as [|l entrada IH]; [discriminate|].
  cbn [elegir_ruta]. destruct (int_de l) as [m|]; [|exact IH].
  destruct (_ && _); [|exact IH]. cbn [salida]. apply indexar_In.
Qed.

(** X9. [_cargar_archivo] loads the sheet whose number the user types: when
    the workbook opens, a line that reads as the number shown next to a
    sheet, typed after any lines that the loop rejects, selects that sheet;
    the call returns the prepared table of that sheet (or the exception of
    the preparation), leaves the later lines unread and has shown the sheet
    under that number. *)
Theorem cargar_hoja_elegida (archivo : Ruta) (xls : ExcelFile)
        (invalidas : list string) (linea : string) (restantes : list string)
        (i : nat) (nombre : string) (hoja : DataFrame) :
  pd_ExcelFile archivo = Devuelve xls ->
  Forall (fun l => hoja_valida int_de (List.length (sheet_names xls)) l = false) invalidas ->
  int_de linea = Some (Z.of_nat (S i)) ->
  nth_error (sheet_names xls) i = Some nombre ->
  read_excel xls nombre = Devuelve hoja ->
  let c := _cargar_archivo pd_ExcelFile int_de parse_numero archivo (invalidas ++ linea :: restantes) in
  salida c = match _preparar_columnas_financieras parse_numero hoja with
             | Ok preparado => Devuelve preparado
             | Raise e => Lanza (Interna e)
             end /\
  resto c = restantes /\
  nth_error (consola c) (S i) = Some (Print (str_nat (S i) ++ ". " ++ nombre)).
Proof.
  intros Hx Hinv Hk Hn Hr c. subst c. unfold _cargar_archivo. rewrite Hx.
  assert (Hlt : (i < List.length (sheet_names xls))%nat) by (apply nth_error_Some; congruence).
  rewrite (elegir_hoja_primera_valida _ _ _ _ _ Hinv Hk) by lia.
  cbn [salida resto consola].
  replace (Z.of_nat (S i) - 1)%Z with (Z.of_nat i) by lia.
  rewrite (indexar_nth _ _ _ Hn), Hr. cbn [salida resto consola].
  split; [reflexivity|]. split; [reflexivity|].
  unfold _mostrar_hojas_disponibles. cbn [app nth_error].
  rewrite nth_error_app1 by (rewrite enumerar_length; exact Hlt).
  now rewrite (enumerar_nth _ 1 i nombre Hn).
Qed.

(** X10. Whatever [_cargar_archivo] returns is the prepared table of a sheet
    of the opened workbook, the one whose number is the first line that the
    loop accepts; the lines before it were rejected and the lines after it
    are left unread. *)
Theorem cargar_devuelve_hoja (archivo : Ruta) (entrada : list string) (preparado : DataFrame) :
  salida (_cargar_archivo pd_ExcelFile int_de parse_numero archivo entrada) = Devuelve preparado ->
  exists xls i nombre hoja invalidas linea,
    pd_ExcelFile archivo = Devuelve xls /\
    nth_error (sheet_names xls) i = Some nombre /\
    read_excel xls nombre = Devuelve hoja /\
    _preparar_columnas_financieras parse_numero hoja = Ok preparado /\
    entrada = (invalidas ++ linea :: resto (_cargar_archivo pd_ExcelFile int_de parse_numero archivo entrada))%list /\
    Forall (fun l => hoja_valida int_de (List.length (sheet_names xls)) l = false) invalidas /\
    int_de linea = Some (Z.of_nat (S i)).
Proof.
  unfold _cargar_archivo. destruct (pd_ExcelFile archivo) as [xls|e] eqn:Hx; [|discriminate].
  destruct (partir_entrada (hoja_valida int_de (List.length (sheet_names xls))) entrada)
    as [Hall | [invalidas [linea [restantes [-> [Hinv Hl]]]]]].
  - destruct (elegir_hoja_sin_valida _ _ Hall) as [E _]. rewrite E. discriminate.
  - unfold hoja_valida in Hl. destruct (int_de linea) as [k|] eqn:Hk; [|discriminate].
    apply andb_true_iff in Hl. destruct Hl as [H1 H2].
    apply Z.leb_le in H1, H2.
    rewrite (elegir_hoja_primera_valida _ _ _ _ _ Hinv Hk) by lia.
    cbn [salida resto consola].
    assert (Ek : k = Z.of_nat (S (Z.to_nat (k - 1)))) by lia.
    set (i := Z.to_nat (k - 1)) in *.
    replace (k - 1)%Z with (Z.of_nat i) by lia.
    destruct (nth_error (sheet_names xls) i) as [nombre|] eqn:Hn.
    2:{ apply nth_error_None in Hn. lia. }
    rewrite (indexar_nth _ _ _ Hn).
    destruct (read_excel xls nombre) as [hoja|e] eqn:Hr; [|discriminate].
    cbn [salida resto].
    destruct (_preparar_columnas_financieras parse_numero hoja) as [d|e] eqn:Hp;
      [|discriminate].
    intros H. injection H as <-.
    exists xls, i, nombre, hoja, invalidas, linea.
    repeat split; try assumption; try reflexivity. now rewrite <- Ek.
Qed.

(** X11. When the workbook opens and no typed line is the number of a sheet,
    [_cargar_archivo] reads every line and ends with the [EOFError] of
    [input]; no sheet is loaded. *)
Theorem cargar_sin_seleccion (archivo : Ruta) (xls : ExcelFile) (entrada : list string) :
  pd_ExcelFile archivo = Devuelve xls ->
  Forall (fun l => hoja_valida int_de (List.length (sheet_names xls)) l = false) entrada ->
  salida (_cargar_archivo pd_ExcelFile int_de parse_numero archivo entrada) = Lanza EOFError /\
  resto (_cargar_archivo pd_ExcelFile int_de parse_numero archivo entrada) = [].
Proof.
  intros Hx Hall. unfold _cargar_archivo. rewrite Hx.
  destruct (elegir_hoja_sin_valida _ _ Hall) as [E R]. now rewrite E.
Qed.

(** [_validar_archivo] returns the path of its argument as soon as it is an
    existing file: nothing is searched, nothing is shown and no line is
    read, whether the argument is a string or a path. *)
Lemma validar_archivo_existente (archivo_excel : Argumento Ruta) (entrada : list string) :
  let archivo_path := match archivo_excel with
                      | Cadena s => Path_de s
                      | Camino p => p
                      end in
  is_file archivo_path = true ->
  _validar_archivo Path_de str_ruta is_file glob isdigit int_de archivo_excel entrada
  = {| salida := Devuelve archivo_path; resto := entrada; consola := [] |}.
Proof. intros archivo_path H. unfold _validar_archivo. fold archivo_path. now rewrite H. Qed.


Lemma buscar_devuelve (s : string) (entrada : list string) (p : Ruta) :
  salida (buscar s entrada) = Devuelve p ->
  exists lista, glob ("**/" ++ s) = Devuelve lista /\ In p lista.
Proof.
  unfold buscar_por_nombre.
  destruct (glob ("**/" ++ s)) as [[|a [|b l]]|e]; cbn [salida].
  - destruct (fst _); discriminate.
  - intros H. apply indexar_In in H. now exists [a].
  - intros H. apply elegir_ruta_In in H. now exists (a :: b :: l).
  - discriminate.
Qed.

(** X13. Whatever path [_validar_archivo] returns is the path of its
    argument, which then is an existing file, or an entry of one of the two
    directory searches. *)
Theorem validar_devuelve (archivo_excel : Argumento Ruta) (entrada : list string) (p : Ruta) :
  salida (_validar_archivo Path_de str_ruta is_file glob isdigit int_de archivo_excel entrada) = Devuelve p ->
  (p = match archivo_excel with
       | Cadena s => Path_de s
       | Camino q => q
       end /\ is_file p = true) \/
  (exists lista, glob "**/*.xls*" = Devuelve lista /\ In p lista) \/
  (exists s lista,
      archivo_excel = Cadena s /\ glob ("**/" ++ s) = Devuelve lista /\ In p lista).
Proof.
  unfold _validar_archivo.
  destruct (is_file _) eqn:F.
  - cbn [salida]. intros H. injection H as <-. now left.
  - destruct archivo_excel as [s|q]; [|discriminate].
    assert (B : salida (buscar s entrada) = Devuelve p ->
                exists s' lista, Cadena s = Cadena (Ruta := Ruta) s' /\
                                 glob ("**/" ++ s') = Devuelve lista /\ In p lista).
    { intros H. apply buscar_devuelve in H. destruct H as [lista [G Hin]].
      now exists s, lista. }
    destruct (isdigit s); [|intros H; right; right; now apply B].
    destruct (int_de s) as [num|]; [|discriminate].
    destruct (glob "**/*.xls*") as [archivos|e] eqn:G; [|discriminate].
    destruct (_ && _).
    + cbn [salida]. intros H. apply indexar_In in H. right. left. now exists archivos.
    + intros H. right. right. now apply B.
Qed.

(** X14. When the argument is a string that is no existing file, selects no
    listed file by number and matches no file by name, [_validar_archivo]
    shows the available Excel files, numbered from 1, or says that there
    are none, and raises [FileNotFoundError] without reading a line. *)
Theorem validar_no_encontrado (s : string) (entrada : list string) (archivos : list Ruta) :
  is_file (Path_de s) = false ->
  glob ("**/" ++ s) = Devuelve [] ->
  glob "**/*.xls*" = Devuelve archivos ->
  (isdigit s = true ->
   exists num, int_de s = Some num /\
               ~ (1 <= num <= Z.of_nat (List.length archivos))%Z) ->
  _validar_archivo Path_de str_ruta is_file glob isdigit int_de (Cadena s) entrada
  = {| salida := Lanza FileNotFoundError;
       resto := entrada;
       consola :=
         Print (nl ++ "Archivos Excel disponibles en el directorio:")
         :: match archivos with
            | [] => [Print "No se encontraron archivos Excel en el directorio."]
            | _ => enumerar 1 (map str_ruta archivos)
            end |}.
Proof.
  intros F G0 G Hd.
  assert (B : buscar s entrada
              = {| salida := Lanza FileNotFoundError;
                   resto := entrada;
                   consola :=
                     Print (nl ++ "Archivos Excel disponibles en el directorio:")
                     :: match archivos with
                        | [] => [Print "No se encontraron archivos Excel en el directorio."]
                        | _ => enumerar 1 (map str_ruta archivos)
                        end |}).
  { unfold buscar_por_nombre, _mostrar_archivos_disponibles. rewrite G0, G.
    now destruct archivos. }
  unfold _validar_archivo. rewrite F.
  destruct (isdigit s); [|exact B].
  destruct (Hd eq_refl) as [num [Hn Hr]]. rewrite Hn, G.
  destruct (_ && _) eqn:E; [|exact B].
  apply andb_true_iff in E. destruct E as [E1 E2].
  apply Z.leb_le in E1, E2. lia.
Qed.

(** X15. A string argument that is no existing file and reads as the number
    of an entry of the list of Excel files selects that entry, without
    reading a line; it is the file that [_mostrar_archivos_disponibles]
    shows under that number. *)
Theorem validar_numero_listado (s : string) (entrada : list string)
        (archivos : list Ruta) (i : nat) (p : Ruta) :
  is_file (Path_de s) = false ->
  isdigit s = true ->
  int_de s = Some (Z.of_nat (S i)) ->
  glob "**/*.xls*" = Devuelve archivos ->
  nth_error archivos i = Some p ->
  _validar_archivo Path_de str_ruta is_file glob isdigit int_de (Cadena s) entrada
  = {| salida := Devuelve p; resto := entrada; consola := [] |} /\
  nth_error (snd (_mostrar_archivos_disponibles str_ruta glob)) (S i)
  = Some (Print (str_nat (S i) ++ ". " ++ str_ruta p)).
Proof.
  intros F D Hn G Hp.
  assert (Hlt : (i < List.length archivos)%nat) by (apply nth_error_Some; congruence).
  split.
  - unfold _validar_archivo. rewrite F, D, Hn, G.
    assert (E : ((1 <=? Z.of_nat (S i)) && (Z.of_nat (S i) <=? Z.of_nat (List.length archivos)))%Z
                = true).
    { apply andb_true_iff. split; apply Z.leb_le; lia. }
    rewrite E. replace (Z.of_nat (S i) - 1)%Z with (Z.of_nat i) by lia.
    now rewrite (indexar_nth _ _ _ Hp).
  - unfold _mostrar_archivos_disponibles. rewrite G.
    destruct archivos as [|a archivos]; [destruct i; discriminate Hp|].
    cbn [snd nth_error].
    apply (enumerar_nth (map str_ruta (a :: archivos)) 1 i).
    now rewrite nth_error_map, Hp.
Qed.

(** X16. The search by name of [_validar_archivo], for a string that is no
    existing file and is not made of digits: a single match is returned
    without reading a line; with several matches they are shown, numbered
    from 1, and the first line that reads as one of these numbers selects
    the match shown under it, the lines before it being rejected and the
    lines after it left unread. *)
Theorem validar_por_nombre (s : string) (posibles : list Ruta) :
  is_file (Path_de s) = false ->
  isdigit s = false ->
  glob ("**/" ++ s) = Devuelve posibles ->
  (forall unica entrada,
     posibles = [unica] ->
     _validar_archivo Path_de str_ruta is_file glob isdigit int_de (Cadena s) entrada
     = {| salida := Devuelve unica; resto := entrada; consola := [] |}) /\
  (forall invalidas linea restantes i p,
     (2 <= List.length posibles)%nat ->
     Forall (fun l => ruta_valida int_de (List.length posibles) l = false) invalidas ->
     int_de linea = Some (Z.of_nat (S i)) ->
     nth_error posibles i = Some p ->
     let c := _validar_archivo Path_de str_ruta is_file glob isdigit int_de (Cadena s) (invalidas ++ linea :: restantes) in
     salida c = Devuelve p /\
     resto c = restantes /\
     nth_error (consola c) (S i) = Some (Print (str_nat (S i) ++ ". " ++ str_ruta p))).
Proof.
  intros F D G. split.
  - intros unica entrada ->. unfold _validar_archivo, buscar_por_nombre.
    now rewrite F, D, G.
  - intros invalidas linea restantes i p Hlen Hinv Hk Hp c. subst c.
    assert (Hlt : (i < List.length posibles)%nat) by (apply nth_error_Some; congruence).
    unfold _validar_archivo, buscar_por_nombre. rewrite F, D, G.
    destruct posibles as [|a [|b l]]; [simpl in Hlen; lia | simpl in Hlen; lia|].
    rewrite (elegir_ruta_primera_valida _ _ _ _ _ _ Hinv Hk Hp).
    cbn [salida resto consola]. split; [reflexivity|]. split; [reflexivity|].
    cbn [app nth_error].
    rewrite nth_error_app1 by (rewrite enumerar_length, length_map; exact Hlt).
    apply (enumerar_nth (map str_ruta (a :: b :: l)) 1 i).
    now rewrite nth_error_map, Hp.
Qed.

End PropiedadesConsola.

(** ** The constructor *)

(** X17. An analyzer that [__init__] returns is the one that [init] builds
    from a sheet of the workbook found at the validated path: its table is
    that sheet prepared, its columns are classified and its configuration
    is the given one or the empty one; the report date is today's and the
    output directory is 'reportes_' followed by that date. *)
Theorem constructor_es_init
        (Ruta : Type) (Path_de : string -> Ruta) (str_ruta : Ruta -> string)
        (is_file : Ruta -> bool) (glob : string -> Salida (list Ruta))
        (pd_ExcelFile : Ruta -> Salida ExcelFile) (isdigit : string -> bool)
        (int_de : string -> option Z) (parse_numero : string -> option Qc)
        (_configurar_logging : Salida unit) (hoy : string) (mkdir : string -> Salida unit)
        (archivo : Argumento Ruta) (cfg : option Configuracion)
        (entrada : list string) (sesion : Sesion Ruta) :
  salida (__init__ Path_de str_ruta is_file glob pd_ExcelFile isdigit int_de parse_numero
                   _configurar_logging hoy mkdir archivo cfg entrada)
  = Devuelve sesion ->
  salida (_validar_archivo Path_de str_ruta is_file glob isdigit int_de archivo entrada)
  = Devuelve (archivo_excel sesion) /\
  (exists xls nombre hoja,
      pd_ExcelFile (archivo_excel sesion) = Devuelve xls /\
      In nombre (sheet_names xls) /\
      read_excel xls nombre = Devuelve hoja /\
      init parse_numero hoja cfg = Ok (analizador sesion)) /\
  reporte_fecha sesion = hoy /\
  directorio_salida sesion = "reportes_" ++ hoy.
Proof.
  unfold __init__. destruct _configurar_logging as [u|e]; [|discriminate].
  destruct (salida (_validar_archivo _ _ _ _ _ _ archivo entrada)) as [ruta|e] eqn:V;
    [|discriminate].
  destruct (salida (_cargar_archivo _ _ _ ruta _)) as [d|e] eqn:C; [|discriminate].
  cbn [salida]. unfold _crear_directorio_salida. cbn [fst snd].
  destruct (mkdir _) as [u'|e]; [|discriminate].
  intros H. injection H as <-. cbn [archivo_excel reporte_fecha directorio_salida analizador].
  split; [reflexivity|]. split; [|split; reflexivity].
  apply cargar_devuelve_hoja in C.
  destruct C as [xls [i [nombre [hoja [invalidas [linea [A [N [R [P _]]]]]]]]]].
  exists xls, nombre, hoja. split; [exact A|].
  split; [now apply nth_error_In in N|]. split; [exact R|].
  unfold init. now rewrite P.
Qed.

Lemma constructor_es_init_witness :
  exists sesion,
    salida (__init__ (fun s => s) (fun p => p) is_file_muestra glob_muestra abrir_muestra
                     isdigit_ascii int_ascii parse_entero
                     (Devuelve tt) "2024-05-01" (fun _ => Devuelve tt)
                     (Cadena "3") None ["2"; "sobra"])
    = Devuelve sesion /\
    archivo_excel sesion = "compras.xls" /\
    directorio_salida sesion = "reportes_2024-05-01" /\
    exists xls nombre hoja,
      abrir_muestra (archivo_excel sesion) = Devuelve xls /\
      In nombre (sheet_names xls) /\
      read_excel xls nombre = Devuelve hoja /\
      init parse_entero hoja None = Ok (analizador sesion).
Proof.
  destruct (salida (__init__ (fun s => s) (fun p => p) is_file_muestra glob_muestra
                             abrir_muestra isdigit_ascii int_ascii parse_entero
                             (Devuelve tt) "2024-05-01" (fun _ => Devuelve tt)
                             (Cadena "3") None ["2"; "sobra"])) as [sesion|e] eqn:E.
  - destruct (constructor_es_init _ _ _ _ _ _ _ _ _ _ _ _ _ _ _ _ E) as [V [X [_ D]]].
    exists sesion. split; [reflexivity|].
    split; [|split; [exact D | exact X]].
    vm_compute in V. now injection V.
  - vm_compute in E. discriminate E.
Defined.

(** ** The sample directory and workbook *)

Lemma cargar_hoja_elegida_witness :
  let c := _cargar_archivo abrir_muestra int_ascii parse_entero "compras.xls"
                           ["x"; "5"; "2"; "1"] in
  salida c = match _preparar_columnas_financieras parse_entero hoja_monto with
             | Ok preparado => Devuelve preparado
             | Raise e => Lanza (Interna e)
             end /\
  resto c = ["1"] /\
  nth_error (consola c) 2 = Some (Print "2. Febrero").
Proof.
  apply (cargar_hoja_elegida string abrir_muestra int_ascii parse_entero
           "compras.xls" libro_muestra ["x"; "5"] "2" ["1"] 1 "Febrero" hoja_monto);
    try reflexivity.
  repeat constructor.
Defined.

Lemma cargar_devuelve_hoja_witness :
  exists preparado xls i nombre hoja invalidas linea,
    salida (_cargar_archivo abrir_muestra int_ascii parse_entero "compras.xls"
                            ["x"; "5"; "2"; "1"]) = Devuelve preparado /\
    abrir_muestra "compras.xls" = Devuelve xls /\
    nth_error (sheet_names xls) i = Some nombre /\
    read_excel xls nombre = Devuelve hoja /\
    _preparar_columnas_financieras parse_entero hoja = Ok preparado /\
    ["x"; "5"; "2"; "1"] = (invalidas ++ [linea; "1"])%list /\
    int_ascii linea = Some (Z.of_nat (S i)).
Proof.
  destruct (salida (_cargar_archivo abrir_muestra int_ascii parse_entero "compras.xls"
                                    ["x"; "5"; "2"; "1"])) as [preparado|e] eqn:E.
  - destruct (cargar_devuelve_hoja string abrir_muestra int_ascii parse_entero
                "compras.xls" ["x"; "5"; "2"; "1"] preparado E)
      as [xls [i [nombre [hoja [invalidas [linea [A [N [R [P [S [_ K]]]]]]]]]]]].
    exists preparado, xls, i, nombre, hoja, invalidas, linea.
    repeat split; assumption.
  - vm_compute in E. discriminate E.
Defined.

Lemma cargar_sin_seleccion_witness :
  salida (_cargar_archivo abrir_muestra int_ascii parse_entero "compras.xls" ["x"; "0"; "3"])
  = Lanza EOFError /\
  resto (_cargar_archivo abrir_muestra int_ascii parse_entero "compras.xls" ["x"; "0"; "3"])
  = [].
Proof.
  apply (cargar_sin_seleccion string abrir_muestra int_ascii parse_entero
           "compras.xls" libro_muestra); [reflexivity|].
  repeat constructor.
Defined.


Lemma validar_devuelve_witness :
  exists lista,
    glob_muestra "**/ventas.xlsx" = Devuelve lista /\ In "viejo/ventas.xlsx" lista.
Proof.
  destruct (validar_devuelve string (fun s => s) (fun p => p) is_file_muestra
              glob_muestra isdigit_ascii int_ascii (Cadena "ventas.xlsx") ["2"]
              "viejo/ventas.xlsx" eq_refl)
    as [[F _] | [[lista [G Hin]] | [s [lista [E [G Hin]]]]]].
  - discriminate F.
  - exists ["datos/ventas.xlsx"; "viejo/ventas.xlsx"]. split; [reflexivity|]. simpl. auto.
  - injection E as <-. now exists lista.
Defined.

Lemma validar_no_encontrado_witness :
  _validar_archivo (fun s => s) (fun p => p) is_file_muestra glob_muestra
                   isdigit_ascii int_ascii (Cadena "nada.xlsx") ["1"]
  = {| salida := Lanza FileNotFoundError;
       resto := ["1"];
       consola := [ Print (nl ++ "Archivos Excel disponibles en el directorio:");
                    Print "1. datos/ventas.xlsx";
                    Print "2. viejo/ventas.xlsx";
                    Print "3. compras.xls" ] |}.
Proof.
  apply (validar_no_encontrado string (fun s => s) (fun p => p) is_file_muestra
           glob_muestra isdigit_ascii int_ascii "nada.xlsx" ["1"]
           ["datos/ventas.xlsx"; "viejo/ventas.xlsx"; "compras.xls"]);
    try reflexivity.
  discriminate.
Defined.

Lemma validar_numero_listado_witness :
  _validar_archivo (fun s => s) (fun p => p) is_file_muestra glob_muestra
                   isdigit_ascii int_ascii (Cadena "3") ["1"]
  = {| salida := Devuelve "compras.xls"; resto := ["1"]; consola := [] |} /\
  nth_error (snd (_mostrar_archivos_disponibles (fun p => p) glob_muestra)) 3
  = Some (Print "3. compras.xls").
Proof.
  apply (validar_numero_listado string (fun s => s) (fun p => p) is_file_muestra
           glob_muestra isdigit_ascii int_ascii "3" ["1"]
           ["datos/ventas.xlsx"; "viejo/ventas.xlsx"; "compras.xls"] 2 "compras.xls");
    reflexivity.
Defined.

Lemma validar_por_nombre_witness :
  let c := _validar_archivo (fun s => s) (fun p => p) is_file_muestra glob_muestra
                            isdigit_ascii int_ascii (Cadena "ventas.xlsx")
                            ["a"; "7"; "2"; "1"] in
  salida c = Devuelve "viejo/ventas.xlsx" /\
  resto c = ["1"] /\
  nth_error (consola c) 2 = Some (Print "2. viejo/ventas.xlsx").
Proof.
  apply (proj2 (validar_por_nombre string (fun s => s) (fun p => p) is_file_muestra
                  glob_muestra isdigit_ascii int_ascii "ventas.xlsx"
                  ["datos/ventas.xlsx"; "viejo/ventas.xlsx"] eq_refl eq_refl eq_refl)
           ["a"; "7"] "2" ["1"] 1%nat "viejo/ventas.xlsx");
    try reflexivity.
  repeat constructor.
Defined.
